(** * Task lifecycle and action ledger of TaskService / TaskDetails

    Shallow embedding of [src/src/pages/admin/TaskDetails.tsx]: the
    [TaskService] class (both revisions present in the file), the UI
    handlers of the [TaskDetails] page that drive status changes, and the
    render conditions that decide which status controls the page shows.

    Modelling conventions:
    - the Firestore [tasks] collection is a [gmap string Task];
    - every awaited call runs in an error/state monad [M] over a [World]
      that records the ordered trace of effects (document writes,
      notifications, activity entries, chat posts, console logs);
    - the external collaborators (notificationService, activityService,
      projectService) succeed or throw according to an environment [Env];
    - JavaScript numbers are IEEE-754 binary64 values, as the Standard
      Library's [SpecFloat] specifies them; a product is rounded to the
      nearest double, ties to even;
    - Firestore refuses a written payload that holds [undefined] anywhere
      (invalid-argument, nothing written); a document read back never holds
      [undefined]; values that callers pass through the typed parameters
      ([TaskInput], [TaskUpdate]) are taken to be JSON values. *)

From Stdlib Require Import QArith Qround ZArith Lia.
From Stdlib Require Import Floats.SpecFloat.
From stdpp Require Import base gmap strings list sorting pretty.

Open Scope string_scope.

(** ** Data model ([firestore-schema] types as used by the service) *)

Inductive Status := pending | in_progress | waiting_approval | completed | blocked.

Definition Status_eqb (a b : Status) : bool :=
  match a, b with
  | pending, pending | in_progress, in_progress
  | waiting_approval, waiting_approval | completed, completed
  | blocked, blocked => true
  | _, _ => false
  end.

Inductive Priority := low | medium | high | critical.

(** ** JavaScript numbers *)

(** A JavaScript number: binary64, [prec = 53], [emax = 1024]. *)
Abbreviation double := spec_float.

(** [x * y]: the exact product rounded to the nearest double. *)
Definition dmul (x y : double) : double := SFmul 53 1024 x y.

(** The double nearest to an integer (the integer itself when it fits). *)
Definition double_of_Z (z : Z) : double := binary_normalize 53 1024 z 0 false.

(** The numeric literal [n / 10^k] (e.g. [1.4] is [double_of_dec 14 1]):
    the double nearest to it. *)
Definition double_of_dec (n : Z) (k : nat) : double :=
  SFdiv 53 1024 (double_of_Z n) (double_of_Z (10 ^ Z.of_nat k)).

(** The exact value [(-1)^s * m * 2^e] of a finite double. *)
Definition finite_value (s : bool) (m : positive) (e : Z) : Q :=
  let q := match e with
           | Z0 => inject_Z (Zpos m)
           | Zpos p => inject_Z (Zpos m * 2 ^ Zpos p)
           | Zneg p => Zpos m # (2 ^ p)%positive
           end in
  if s then (- q)%Q else q.

(** The exact value of a double; [None] for the infinities and NaN. *)
Definition double_value (x : double) : option Q :=
  match x with
  | S754_zero _ => Some 0%Q
  | S754_finite s m e => Some (finite_value s m e)
  | _ => None
  end.

(** [Math.round(x)]: [floor(x + 1/2)] taken on the exact value of [x]
    (the nearest integer, ties towards +infinity); a result of zero keeps
    the sign of [x] ([Math.round(-0.3)] is [-0]); zeros, infinities and
    NaN are returned as they are. The integer is always a double. *)
Definition js_round (x : double) : double :=
  match x with
  | S754_finite s m e =>
      let r := Qfloor (finite_value s m e + (1 # 2))%Q in
      if Z.eqb r 0 then S754_zero s else double_of_Z r
  | _ => x
  end.

(** Values stored in an action's free-form [data] object. *)
Inductive Value :=
  | VUndefined
  | VNull
  | VBool (b : bool)
  | VNum (x : double)
  | VStr (s : string).

(** A JavaScript object used as a string-keyed map. *)
Abbreviation Obj := (gmap string Value).

(** [TaskAction]: optional fields are [option]; [None] is an absent key. *)
Record TaskAction := mkAction {
  a_id : string;
  a_title : string;
  a_type : string;
  a_completed : bool;
  a_completedAt : option Z;
  a_completedBy : option string;
  a_description : string;
  a_required : bool;
  a_data : option Obj
}.

Record TaskSchema := mkTask {
  t_id : string;
  t_title : string;
  t_description : string;
  t_projectId : string;
  t_assignedTo : string;
  t_createdBy : string;
  t_status : Status;
  t_priority : Priority;
  t_difficultyLevel : double;
  t_coinsReward : double;
  t_dueDate : Z;
  t_actions : list TaskAction;
  t_createdAt : Z;
  t_updatedAt : Z
}.

(** [Partial<TaskSchema>]: [None] is an absent key. *)
Record TaskUpdate := mkUpdate {
  u_id : option string;
  u_title : option string;
  u_description : option string;
  u_projectId : option string;
  u_assignedTo : option string;
  u_createdBy : option string;
  u_status : option Status;
  u_priority : option Priority;
  u_difficultyLevel : option double;
  u_coinsReward : option double;
  u_dueDate : option Z;
  u_actions : option (list TaskAction);
  u_createdAt : option Z;
  u_updatedAt : option Z
}.

(** [{ status: s }], the update every call site in the page passes. *)
Definition status_update (s : Status) : TaskUpdate :=
  mkUpdate None None None None None None (Some s) None None None None None None None.

(** Chat messages of a project ([addSystemMessageToProjectChat]). *)
Inductive MessageType := task_submission | task_approval | user_message.

Definition MessageType_eqb (a b : MessageType) : bool :=
  match a, b with
  | task_submission, task_submission | task_approval, task_approval
  | user_message, user_message => true
  | _, _ => false
  end.

Record ChatMessage := mkMsg {
  m_id : string;
  m_projectId : string;
  m_content : string;
  m_timestamp : Z;
  m_messageType : MessageType;
  m_quoted : option string;            (* quotedMessage?.content *)
  m_originalMessageId : option string
}.

Record Notification := mkNotif {
  n_recipient : string;
  n_type : string;
  n_title : string;
  n_message : string;
  n_relatedEntityId : string
}.

Record Activity := mkActivity {
  act_userId : string;
  act_type : string;
  act_projectId : string;
  act_projectName : string;
  act_taskId : string;
  act_taskName : string;
  act_newStatus : option Status
}.

(** Effects in the order they happen. *)
Inductive Event :=
  | EvWrite (taskId : string)          (* setDoc / updateDoc on tasks/{id} *)
  | EvNotify (n : Notification)
  | EvActivity (a : Activity)
  | EvChat (m : ChatMessage)
  | EvLog (msg : string).              (* console.error / console.warn *)

Record World := mkWorld {
  w_tasks : gmap string TaskSchema;
  w_chat : list ChatMessage;           (* project messages, oldest first *)
  w_trace : list Event
}.

(** Behaviour of the environment during one call. *)
Record Env := mkEnv {
  e_now : Z;                           (* Date.now() *)
  e_uid : option string;               (* auth.currentUser?.uid *)
  e_displayName : string;
  e_newId : string;                    (* doc(collection(db,'tasks')).id *)
  e_projectName : option string;       (* getProjectById: None = throws *)
  e_notify_ok : bool;
  e_activity_ok : bool;
  e_chat_ok : bool;
  e_assigneeName : string;             (* users[assignedTo]?.name || ... *)
  e_adminName : string;                (* currentUser?.displayName || ... *)
  e_msgId : string;                    (* id the chat store gives a new message *)
  e_formatDate : Z -> string           (* toLocaleString('pt-BR', ...) *)
}.

(** Errors thrown along the service's paths. *)
Inductive Error :=
  | TaskNotFound                       (* 'Tarefa não encontrada' / NOT_FOUND *)
  | TemplateNotFound
  | TypeErrorUndefined                 (* reading a field of undefined *)
  | ProjectLookupFailed
  | NotificationFailed
  | ActivityFailed
  | ChatFailed
  | InvalidArgument.                   (* the SDK refusing an [undefined] field *)

Inductive Result (A : Type) := Ok (a : A) | Fail (e : Error).
Arguments Ok {A} a.
Arguments Fail {A} e.

(** ** The error/state monad *)

Definition M (A : Type) := World -> Result A * World.

Definition ret {A} (a : A) : M A := fun w => (Ok a, w).
Definition throw {A} (e : Error) : M A := fun w => (Fail e, w).
Definition bind {A B} (m : M A) (k : A -> M B) : M B :=
  fun w => match m w with
           | (Ok a, w') => k a w'
           | (Fail e, w') => (Fail e, w')
           end.

Notation "x <- m ;; k" := (bind m (fun x => k))
  (at level 100, m at next level, right associativity).
Notation "m ;;; k" := (bind m (fun _ => k))
  (at level 100, right associativity).

(** [try { body } catch (error) { console.error(msg, error); throw error }] *)
Definition log_rethrow {A} (msg : string) (m : M A) : M A :=
  fun w => match m w with
           | (Ok a, w') => (Ok a, w')
           | (Fail e, w') =>
               (Fail e, mkWorld (w_tasks w') (w_chat w') (w_trace w' ++ [EvLog msg]))
           end.

Definition emit (ev : Event) : M unit :=
  fun w => (Ok tt, mkWorld (w_tasks w) (w_chat w) (w_trace w ++ [ev])).

Definition get_world : M World := fun w => (Ok w, w).

(** ** Persistence port and external collaborators *)

(** [getDoc(doc(db,'tasks',id))]: the snapshot, [None] when it does not exist. *)
Definition get_doc (taskId : string) : M (option TaskSchema) :=
  fun w => (Ok (w_tasks w !! taskId), w).

(** [setDoc(taskRef, newTask)]; [defined] tells whether the payload is
    free of [undefined]: if not, the SDK throws before writing. *)
Definition set_doc (defined : bool) (t : TaskSchema) : M unit :=
  fun w => if defined
           then (Ok tt, mkWorld (<[t_id t := t]> (w_tasks w)) (w_chat w)
                                (w_trace w ++ [EvWrite (t_id t)]))
           else (Fail InvalidArgument, w).

(** [updateDoc(taskRef, fields)]: a payload holding [undefined]
    ([defined = false]) is refused by the SDK before anything is sent;
    otherwise the fields are merged into the stored document, and Firestore
    rejects the update of a missing document. *)
Definition update_doc (taskId : string) (defined : bool) (fields : TaskSchema -> TaskSchema)
    : M unit :=
  fun w => if defined then
             match w_tasks w !! taskId with
             | None => (Fail TaskNotFound, w)
             | Some t => (Ok tt, mkWorld (<[taskId := fields t]> (w_tasks w)) (w_chat w)
                                        (w_trace w ++ [EvWrite taskId]))
             end
           else (Fail InvalidArgument, w).

Definition getProjectById (env : Env) (projectId : string) : M string :=
  match e_projectName env with
  | Some name => ret name
  | None => throw ProjectLookupFailed
  end.

Definition logActivity (env : Env) (a : Activity) : M unit :=
  if e_activity_ok env then emit (EvActivity a) else throw ActivityFailed.

Definition createNotification (env : Env) (n : Notification) : M unit :=
  if e_notify_ok env then emit (EvNotify n) else throw NotificationFailed.

Definition with_msg_id (msgId : string) (m : ChatMessage) : ChatMessage :=
  mkMsg msgId (m_projectId m) (m_content m) (m_timestamp m)
        (m_messageType m) (m_quoted m) (m_originalMessageId m).

(** [projectService.addSystemMessageToProjectChat]: appends the message to
    the project's chat; the store assigns the identifier [msgId]. *)
Definition addSystemMessageToProjectChat (env : Env) (msgId : string)
    (m : ChatMessage) : M unit :=
  if e_chat_ok env then
    fun w => let m' := with_msg_id msgId m in
             (Ok tt, mkWorld (w_tasks w) (w_chat w ++ [m'])
                             (w_trace w ++ [EvChat m']))
  else throw ChatFailed.

Definition getProjectMessages (projectId : string) : M (list ChatMessage) :=
  fun w => (Ok (filter (fun m => m_projectId m = projectId) (w_chat w)), w).

(** ** Record updates written out *)

Definition with_actions (t : TaskSchema) (acts : list TaskAction) (now : Z) : TaskSchema :=
  mkTask (t_id t) (t_title t) (t_description t) (t_projectId t) (t_assignedTo t)
         (t_createdBy t) (t_status t) (t_priority t) (t_difficultyLevel t)
         (t_coinsReward t) (t_dueDate t) acts (t_createdAt t) now.

(** A present key overrides the stored field. *)
Definition override {A} (o : option A) (x : A) : A :=
  match o with Some v => v | None => x end.

(** [{ ...updates, updatedAt: Date.now() }] merged into the document. *)
Definition apply_update (u : TaskUpdate) (now : Z) (t : TaskSchema) : TaskSchema :=
  mkTask (override (u_id u) (t_id t)) (override (u_title u) (t_title t))
         (override (u_description u) (t_description t))
         (override (u_projectId u) (t_projectId t))
         (override (u_assignedTo u) (t_assignedTo t))
         (override (u_createdBy u) (t_createdBy t))
         (override (u_status u) (t_status t))
         (override (u_priority u) (t_priority t))
         (override (u_difficultyLevel u) (t_difficultyLevel t))
         (override (u_coinsReward u) (t_coinsReward t))
         (override (u_dueDate u) (t_dueDate t))
         (override (u_actions u) (t_actions t))
         (override (u_createdAt u) (t_createdAt t)) now.

(** [{ ...undefined }] is [{}]. *)
Definition obj_of (o : option Obj) : Obj :=
  match o with Some d => d | None => ∅ end.

Definition is_set {A} (o : option A) : bool :=
  match o with Some _ => true | None => false end.

Definition value_defined (v : Value) : bool :=
  match v with VUndefined => false | _ => true end.

(** No value of the object is [undefined]. *)
Definition obj_defined (o : Obj) : bool :=
  forallb (fun kv => value_defined kv.2) (map_to_list o).

Definition patch_defined (data : option Obj) : bool :=
  match data with Some d => obj_defined d | None => true end.

(** ** ActionLedger: [completeTaskAction] (first revision) *)

(** [...(data ? { data: { ...action.data, ...data } } : {})]: a supplied
    [data] object is always truthy; its keys win over the existing ones. *)
Definition merge_data (data : option Obj) (current : option Obj) : option Obj :=
  match data with
  | Some d => Some (d ∪ obj_of current)
  | None => current
  end.

(** The callback of [taskData.actions.map(...)]:
    [{ ...action, completed: true, completedAt: Date.now(),
       completedBy: auth.currentUser?.uid,
       ...(data ? { data: { ...action.data, ...data } } : {}) }].
    A supplied [data] object is always truthy. *)
Definition complete_action (now : Z) (uid : option string) (actionId : string)
    (data : option Obj) (action : TaskAction) : TaskAction :=
  if String.eqb (a_id action) actionId then
    mkAction (a_id action) (a_title action) (a_type action) true (Some now) uid
             (a_description action) (a_required action)
             (merge_data data (a_data action))
  else action.

(** The payload of [completeTaskAction] holds no [undefined]: a matched
    action gets [completedBy: auth.currentUser?.uid] and the patch's keys;
    the other actions are written back as read. *)
Definition complete_accepted (uid : option string) (actionId : string)
    (data : option Obj) (acts : list TaskAction) : bool :=
  forallb (fun a => if String.eqb (a_id a) actionId
                    then is_set uid && patch_defined data else true) acts.

Definition completeTaskAction (env : Env) (taskId actionId : string)
    (data : option Obj) : M unit :=
  log_rethrow "Erro ao completar ação de tarefa:" (
    snap <- get_doc taskId ;;
    match snap with
    | None => throw TaskNotFound
    | Some taskData =>
        let updatedActions :=
          map (complete_action (e_now env) (e_uid env) actionId data) (t_actions taskData) in
        update_doc taskId
          (complete_accepted (e_uid env) actionId data (t_actions taskData))
          (fun t => with_actions t updatedActions (e_now env))
    end).

(** ** ActionLedger: [uncompleteTaskAction] *)

(** [const { completed, completedAt, completedBy, ...rest } = action;
     return { ...rest, completed: false }] *)
Definition uncomplete_action (actionId : string) (action : TaskAction) : TaskAction :=
  if String.eqb (a_id action) actionId then
    mkAction (a_id action) (a_title action) (a_type action) false None None
             (a_description action) (a_required action) (a_data action)
  else action.

Definition uncompleteTaskAction (env : Env) (taskId actionId : string) : M unit :=
  log_rethrow "Erro ao descompletar ação de tarefa:" (
    snap <- get_doc taskId ;;
    match snap with
    | None => throw TaskNotFound
    | Some taskData =>
        let updatedActions := map (uncomplete_action actionId) (t_actions taskData) in
        update_doc taskId true (fun t => with_actions t updatedActions (e_now env))
    end).

(** ** ActionLedger: [completeTaskAction] (second revision of TaskService) *)

(** [data.value]: [undefined] when the patch has no key [value]. *)
Definition patch_value (d : Obj) : Value :=
  match d !! "value" with Some v => v | None => VUndefined end.

(** [data: { ...action.data, value: data.value }]; [data.value] on an
    undefined [data] throws a TypeError inside the [map] callback. *)
Definition complete_action2 (now : Z) (uid : option string) (actionId : string)
    (data : option Obj) (action : TaskAction) : Result TaskAction :=
  if String.eqb (a_id action) actionId then
    match data with
    | None => Fail TypeErrorUndefined
    | Some d =>
        let v := patch_value d in
        Ok (mkAction (a_id action) (a_title action) (a_type action) true (Some now) uid
                     (a_description action) (a_required action)
                     (Some (<["value" := v]> (obj_of (a_data action)))))
    end
  else Ok action.

(** [Array.prototype.map] with a callback that may throw. *)
Fixpoint map_res {A B} (f : A -> Result B) (l : list A) : Result (list B) :=
  match l with
  | [] => Ok []
  | x :: xs => match f x with
               | Fail e => Fail e
               | Ok y => match map_res f xs with
                         | Fail e => Fail e
                         | Ok ys => Ok (y :: ys)
                         end
               end
  end.

(** The payload of the revised [completeTaskAction] holds no [undefined]:
    a matched action gets [completedBy: auth.currentUser?.uid] and
    [value: data.value]. *)
Definition complete2_accepted (uid : option string) (actionId : string)
    (data : option Obj) (acts : list TaskAction) : bool :=
  forallb (fun a => if String.eqb (a_id a) actionId
                    then is_set uid && match data with
                                       | Some d => value_defined (patch_value d)
                                       | None => false
                                       end
                    else true) acts.

Definition completeTaskAction2 (env : Env) (taskId actionId : string)
    (data : option Obj) : M unit :=
  log_rethrow "Error completing task action:" (
    snap <- get_doc taskId ;;
    match snap with
    | None => throw TaskNotFound
    | Some taskData =>
        match map_res (complete_action2 (e_now env) (e_uid env) actionId data)
                      (t_actions taskData) with
        | Fail e => throw e
        | Ok updatedActions =>
            update_doc taskId
              (complete2_accepted (e_uid env) actionId data (t_actions taskData))
              (fun t => with_actions t updatedActions (e_now env)) ;;;
            emit (EvLog "Task action completed successfully")
        end
    end).

(** ** [TaskService.getTaskById] and [TaskService.updateTask] *)

Definition getTaskById (taskId : string) : M TaskSchema :=
  log_rethrow "Erro ao buscar tarefa por ID:" (
    snap <- get_doc taskId ;;
    match snap with
    | Some t => ret t
    | None => throw TaskNotFound
    end).

(** [auth.currentUser?.uid || ''] *)
Definition uid_or_empty (env : Env) : string :=
  match e_uid env with Some u => u | None => "" end.

Definition updateTask (env : Env) (taskId : string) (updates : TaskUpdate) : M TaskSchema :=
  log_rethrow "Erro ao atualizar tarefa:" (
    update_doc taskId true (apply_update updates (e_now env)) ;;;  (* typed [updates] *)
    updatedTask <- getTaskById taskId ;;
    projectName <- getProjectById env (t_projectId updatedTask) ;;
    logActivity env (mkActivity (uid_or_empty env) "task_updated"
                       (t_projectId updatedTask) projectName
                       (t_id updatedTask) (t_title updatedTask) None) ;;;
    (match u_status updates with
     | Some s => logActivity env (mkActivity (uid_or_empty env) "task_status_update"
                                   (t_projectId updatedTask) projectName
                                   (t_id updatedTask) (t_title updatedTask) (Some s))
     | None => ret tt
     end) ;;;
    ret updatedTask).

(** ** The [TaskDetails] handlers *)

(** [try { body } catch (error) { console.error(msg, error); setError(ui) }]:
    the handler itself never rejects; its result is the error banner set. *)
Definition catch_ui (msg ui : string) (m : M unit) : M (option string) :=
  fun w => match m w with
           | (Ok _, w') => (Ok None, w')
           | (Fail _, w') =>
               (Ok (Some ui), mkWorld (w_tasks w') (w_chat w') (w_trace w' ++ [EvLog msg]))
           end.

Definition dq : string := String (Ascii.ascii_of_nat 34) EmptyString.

(** [`Tarefa: ${title} - [Ver Tarefa](/tasks/${id})`] *)
Definition task_link (t : TaskSchema) : string :=
  "Tarefa: " ++ t_title t ++ " - [Ver Tarefa](/tasks/" ++ t_id t ++ ")".

Definition submission_message (env : Env) (t : TaskSchema) : ChatMessage :=
  mkMsg "" (t_projectId t)
        ("A tarefa " ++ dq ++ t_title t ++ dq ++ " foi enviada para aprovação por "
           ++ e_assigneeName env ++ ".")
        (e_now env) task_submission (Some (task_link t)) None.

Definition approval_message (env : Env) (t : TaskSchema) (sub : ChatMessage) : ChatMessage :=
  mkMsg "" (t_projectId t)
        ("A tarefa " ++ dq ++ t_title t ++ dq ++ " foi enviada para aprovação por "
           ++ e_assigneeName env ++ " no dia " ++ e_formatDate env (m_timestamp sub)
           ++ ", e aprovada por " ++ e_adminName env ++ " no dia "
           ++ e_formatDate env (e_now env) ++ ".")
        (e_now env) task_approval (Some (task_link t)) (Some (m_id sub)).

(** [String.prototype.includes] *)
Definition includes (s sub : string) : bool :=
  match String.index 0 sub s with Some _ => true | None => false end.

(** [msg.messageType === 'task_submission' &&
     msg.quotedMessage?.content.includes(`/tasks/${updatedTask.id}`)] *)
Definition is_submission_of (t : TaskSchema) (m : ChatMessage) : bool :=
  MessageType_eqb (m_messageType m) task_submission &&
  match m_quoted m with
  | Some c => includes c ("/tasks/" ++ t_id t)
  | None => false
  end.

Definition handleSubmitForApproval (env : Env) (taskId : string) : M (option string) :=
  catch_ui "Error submitting for approval:" "Failed to submit the task for approval." (
    updatedTask <- updateTask env taskId (status_update waiting_approval) ;;
    addSystemMessageToProjectChat env (e_msgId env) (submission_message env updatedTask)).

Definition handleCompleteTask (env : Env) (taskId : string) : M (option string) :=
  catch_ui "Error completing task:" "Failed to complete the task." (
    updatedTask <- updateTask env taskId (status_update completed) ;;
    projectMessages <- getProjectMessages (t_projectId updatedTask) ;;
    match List.find (is_submission_of updatedTask) projectMessages with
    | Some submissionMessage =>
        addSystemMessageToProjectChat env (e_msgId env)
          (approval_message env updatedTask submissionMessage)
    | None => emit (EvLog "Could not find original submission message to update.")
    end).

Definition handleRevertToPending (env : Env) (taskId : string) : M (option string) :=
  catch_ui "Error reverting task to pending:" "Failed to revert task to pending." (
    updateTask env taskId (status_update pending) ;;;
    getTaskById taskId ;;;
    ret tt).

(** [try { body } catch (error) { console.error(msg, error) }]: the
    action handlers log a failure and set no error banner. *)
Definition catch_log (msg : string) (m : M unit) : M unit :=
  fun w => match m w with
           | (Ok _, w') => (Ok tt, w')
           | (Fail _, w') => (Ok tt, mkWorld (w_tasks w') (w_chat w') (w_trace w' ++ [EvLog msg]))
           end.

(** [handleActionComplete]: complete the action, then reload the task
    (the first revision of [TaskService.completeTaskAction]). *)
Definition handleActionComplete (env : Env) (taskId actionId : string) (data : option Obj) : M unit :=
  catch_log "Error completing action:" (
    completeTaskAction env taskId actionId data ;;;
    getTaskById taskId ;;;
    ret tt).

Definition handleActionUncomplete (env : Env) (taskId actionId : string) : M unit :=
  catch_log "Error uncompleting action:" (
    uncompleteTaskAction env taskId actionId ;;;
    getTaskById taskId ;;;
    ret tt).

(** ** Render conditions of the status controls *)

(** [task.actions?.length > 0 && task.actions.every(a => a.completed)] *)
Definition allActionsCompleted (t : TaskSchema) : bool :=
  negb (Nat.eqb (length (t_actions t)) 0) && forallb a_completed (t_actions t).

(** The "submit for approval" button:
    [allActionsCompleted && status !== 'waiting_approval' && status !== 'completed'] *)
Definition submit_visible (t : TaskSchema) : bool :=
  allActionsCompleted t && negb (Status_eqb (t_status t) waiting_approval)
                        && negb (Status_eqb (t_status t) completed).

(** The approve / revert buttons:
    [currentUser?.role === 'admin' && task.status === 'waiting_approval'] *)
Definition admin_buttons_visible (is_admin : bool) (t : TaskSchema) : bool :=
  is_admin && Status_eqb (t_status t) waiting_approval.

(** Target statuses of the status controls the page renders for [t]. *)
Definition status_controls (is_admin : bool) (t : TaskSchema) : list Status :=
  (if submit_visible t then [waiting_approval] else [])
  ++ (if admin_buttons_visible is_admin t then [completed; pending] else []).

(** ** Task creation and the reward *)

(** [systemSettingsService.getSettings()] fields used by the reward. *)
Record Settings := mkSettings {
  taskCompletionBase : double;
  complexityMultiplier : double
}.

(** [Omit<TaskSchema, 'id' | 'createdAt' | 'updatedAt'>] as passed by callers;
    the fields the service overrides are left out. *)
Record TaskInput := mkInput {
  ti_title : string;
  ti_description : string;
  ti_projectId : string;
  ti_assignedTo : string;
  ti_priority : Priority;
  ti_difficultyLevel : double;
  ti_dueDate : Z;
  ti_actions : option (list TaskAction)
}.

(** [Math.round(taskData.difficultyLevel * settings.taskCompletionBase *
                settings.complexityMultiplier)]: two rounded products. *)
Definition coins_reward (ti : TaskInput) (s : Settings) : double :=
  js_round (dmul (dmul (ti_difficultyLevel ti) (taskCompletionBase s))
                 (complexityMultiplier s)).

Definition new_task (env : Env) (s : Settings) (ti : TaskInput)
    (actions : list TaskAction) : TaskSchema :=
  mkTask (e_newId env) (ti_title ti) (ti_description ti) (ti_projectId ti)
         (ti_assignedTo ti) (uid_or_empty env) pending (ti_priority ti)
         (ti_difficultyLevel ti) (coins_reward ti s) (ti_dueDate ti)
         actions (e_now env) (e_now env).

Definition createTask (env : Env) (settings : Settings) (taskData : TaskInput) : M TaskSchema :=
  log_rethrow "Erro ao criar tarefa:" (
    let newTask := new_task env settings taskData
                     (match ti_actions taskData with Some l => l | None => [] end) in
    set_doc true newTask ;;;            (* [taskData] is a typed [TaskInput]: JSON values *)
    (if String.eqb (ti_assignedTo taskData) "" then ret tt
     else createNotification env
            (mkNotif (ti_assignedTo taskData) "task_assigned" "Nova Tarefa Atribuída"
               ("Você foi atribuído à tarefa " ++ dq ++ ti_title taskData ++ dq)
               (t_id newTask))) ;;;
    projectName <- getProjectById env (t_projectId newTask) ;;
    logActivity env (mkActivity (uid_or_empty env) "task_created" (t_projectId newTask)
                       projectName (t_id newTask) (t_title newTask) None) ;;;
    ret newTask).

(** An element of an action template. [el_fields] is the element itself as
    an object, spread into the action's [data]. *)
Record TemplateElement := mkElement {
  el_label : string;
  el_type : string;
  el_description : option string;
  el_required : option bool;
  el_defaultValue : Value;
  el_fields : Obj
}.

Record ActionTemplate := mkTemplate { tpl_elements : list TemplateElement }.

(** [template.elements.map((element, index) => ({ id: `action_${index}_${Date.now()}`,
      ..., completed: false, ..., data: { ...element, value: element.defaultValue } }))] *)
Definition createActionsFromTemplate (now : Z) (template : ActionTemplate) : list TaskAction :=
  imap (fun index element =>
          mkAction ("action_" ++ pretty index ++ "_" ++ pretty now)
                   (el_label element) (el_type element) false None None
                   (match el_description element with Some d => d | None => "" end)
                   (match el_required element with Some b => b | None => false end)
                   (Some (<["value" := el_defaultValue element]> (el_fields element))))
       (tpl_elements template).

(** The actions carry no [undefined] in their [data]; in
    [{ ...element, value: element.defaultValue }] a missing default value
    is [undefined]. *)
Definition actions_defined (acts : list TaskAction) : bool :=
  forallb (fun a => obj_defined (obj_of (a_data a))) acts.

Definition createTaskWithTemplate (env : Env) (settings : Settings) (taskData : TaskInput)
    (template : option ActionTemplate) : M TaskSchema :=
  log_rethrow "Error creating task with template:" (
    match template with
    | None => throw TemplateNotFound
    | Some tpl =>
        let actions := createActionsFromTemplate (e_now env) tpl in
        let newTask := new_task env settings taskData actions in
        set_doc (actions_defined actions) newTask ;;;
        projectName <- getProjectById env (t_projectId newTask) ;;
        logActivity env (mkActivity (uid_or_empty env) "task_created" (t_projectId newTask)
                           projectName (t_id newTask) (t_title newTask) None) ;;;
        ret newTask
    end).

(** The rounding the spec prescribes for the reward (spec 4.3): nearest
    integer, ties away from zero, of the real product. Stated from the
    spec's words, to be compared with [js_round]. *)
Definition spec_round_half_away (x : Q) : Z :=
  if Qle_bool 0 x then Qfloor (x + (1 # 2))%Q else (- Qfloor (- x + (1 # 2)))%Z.

(** ** [TaskService.fetchTasks] *)

Record FetchOptions := mkFetch {
  fo_projectId : option string;
  fo_assignedTo : option string;
  fo_status : option Status;
  fo_priority : option Priority;
  fo_limit : option nat;
  fo_startAfter : option Z          (* cursor on the ordering field createdAt *)
}.

Record FetchResult := mkFetchResult {
  data : list TaskSchema;
  totalTasks : nat;
  totalPages : Z
}.

Definition opt_match {A} (eqb : A -> A -> bool) (o : option A) (x : A) : bool :=
  match o with Some v => eqb v x | None => true end.

(** [if (options?.projectId)] and the like on a string: the empty string
    is falsy and adds no constraint. *)
Definition str_match (o : option string) (x : string) : bool :=
  match o with
  | Some v => if String.eqb v "" then true else String.eqb v x
  | None => true
  end.

Definition Priority_eqb (a b : Priority) : bool :=
  match a, b with
  | low, low | medium, medium | high, high | critical, critical => true
  | _, _ => false
  end.

(** [orderBy('createdAt', 'desc')] as a total preorder. *)
Definition created_desc (a b : TaskSchema) : Prop := (t_createdAt b <= t_createdAt a)%Z.

#[global] Instance created_desc_dec : RelDecision created_desc :=
  fun a b => Z.le_dec (t_createdAt b) (t_createdAt a).

(** The [where(...)] constraints; a status or priority is a non-empty
    string, always truthy. *)
Definition matches_filters (o : FetchOptions) (t : TaskSchema) : bool :=
  str_match (fo_projectId o) (t_projectId t)
  && str_match (fo_assignedTo o) (t_assignedTo t)
  && opt_match Status_eqb (fo_status o) (t_status t)
  && opt_match Priority_eqb (fo_priority o) (t_priority t).

(** [if (options?.limit)]: a limit of 0 is falsy and adds no constraint. *)
Definition limit_of (o : FetchOptions) : option nat :=
  match fo_limit o with Some (S n) => Some (S n) | _ => None end.

(** [if (options?.startAfter)]: a cursor of 0 is falsy and adds no
    constraint. *)
Definition cursor_of (o : FetchOptions) : option Z :=
  match fo_startAfter o with
  | Some c => if Z.eqb c 0 then None else Some c
  | None => None
  end.

(** [query(collection(db,'tasks'), ...constraints)] evaluated by the store:
    filters, [orderBy('createdAt','desc')], the [startAfter] cursor, then
    [limit]. *)
Definition run_query (o : FetchOptions) (store : gmap string TaskSchema) : list TaskSchema :=
  let filtered := List.filter (matches_filters o) (map snd (map_to_list store)) in
  let ordered := merge_sort created_desc filtered in
  let after := match cursor_of o with
               | Some c => List.filter (fun t => Z.ltb (t_createdAt t) c) ordered
               | None => ordered
               end in
  match limit_of o with Some l => take l after | None => after end.

(** [Math.ceil(n / l)] *)
Definition js_ceil_div (n l : nat) : Z := Qceiling (inject_Z (Z.of_nat n) / inject_Z (Z.of_nat l)).

Definition fetchTasks (o : FetchOptions) : M FetchResult :=
  w <- get_world ;;
  let tasks := run_query o (w_tasks w) in
  let total := length tasks in
  ret (mkFetchResult tasks total
         (match limit_of o with Some l => js_ceil_div total l | None => 1%Z end)).

(** The [startAfter] cursor as a test on one task. *)
Definition before_cursor (o : FetchOptions) (t : TaskSchema) : bool :=
  match cursor_of o with Some c => Z.ltb (t_createdAt t) c | None => true end.

(** ** [TaskService.deleteTask] *)

(** [deleteDoc(taskRef)]: removes the document; deleting a missing
    document succeeds. *)
Definition delete_doc (taskId : string) : M unit :=
  fun w => (Ok tt, mkWorld (delete taskId (w_tasks w)) (w_chat w)
                           (w_trace w ++ [EvWrite taskId])).

Definition deleteTask (taskId : string) : M unit :=
  log_rethrow "Erro ao excluir tarefa:" (delete_doc taskId).

(** ** The progress bar of [TaskDetails] *)




(** ** The users [loadTask] fetches *)

(** [Array.from(new Set(xs))]: each value once, at its first occurrence. *)
Fixpoint dedup_from (seen : list string) (xs : list string) : list string :=
  match xs with
  | [] => []
  | x :: rest =>
      if existsb (String.eqb x) seen then dedup_from seen rest
      else x :: dedup_from (x :: seen) rest
  end.

(** [const userIds = [assignedTo, createdBy];
     actions.forEach(a => { if (a.completedBy) userIds.push(a.completedBy) });
     Array.from(new Set(userIds)).filter(Boolean)] *)
Definition user_ids_to_load (t : TaskSchema) : list string :=
  List.filter (fun u => negb (String.eqb u ""))
    (dedup_from []
       ([t_assignedTo t; t_createdBy t] ++
        flat_map (fun a => match a_completedBy a with
                           | Some u => if String.eqb u "" then [] else [u]
                           | None => []
                           end) (t_actions t))).

(** ** Sample data *)

Definition act_open (id : string) (required : bool) : TaskAction :=
  mkAction id "Action" "checkbox" false None None "" required None.

Definition act_done (id : string) (required : bool) : TaskAction :=
  mkAction id "Action" "checkbox" true (Some 5%Z) (Some "u1") "" required None.

Definition sample_task (st : Status) (acts : list TaskAction) : TaskSchema :=
  mkTask "t1" "Relatorio" "" "p1" "u1" "admin1" st medium (double_of_Z 3) (double_of_Z 45)
         0 acts 1 1.

(** [{}] *)
Definition empty_update : TaskUpdate :=
  mkUpdate None None None None None None None None None None None None None None.

Definition env_ok : Env :=
  mkEnv 100 (Some "u1") "Ana" "t9" (Some "Projeto") true true true "Ana" "Admin" "m1"
        (fun _ => "01/01/2026").

Definition world_of (t : TaskSchema) : World := mkWorld {[t_id t := t]} [] [].

Definition task_in (w : World) (id : string) : option TaskSchema := w_tasks w !! id.

Definition status_in (w : World) (id : string) : option Status :=
  match task_in w id with Some t => Some (t_status t) | None => None end.

(** ** Derived predicates *)

Definition has_incomplete_required (t : TaskSchema) : bool :=
  existsb (fun a => a_required a && negb (a_completed a)) (t_actions t).

(** Activity entries [updateTask] records after its write. *)
Definition update_events (env : Env) (u : TaskUpdate) (t : TaskSchema) (pn : string) : list Event :=
  EvActivity (mkActivity (uid_or_empty env) "task_updated" (t_projectId t) pn
                         (t_id t) (t_title t) None)
  :: match u_status u with
     | Some s => [EvActivity (mkActivity (uid_or_empty env) "task_status_update"
                                         (t_projectId t) pn (t_id t) (t_title t) (Some s))]
     | None => []
     end.

(** An action with its completion fields reset and the given [data]. *)
Definition reset_with_data (a : TaskAction) (d : option Obj) : TaskAction :=
  mkAction (a_id a) (a_title a) (a_type a) false None None
           (a_description a) (a_required a) d.

(** The invariant of spec section 3: [completed = true] iff both
    [completedAt] and [completedBy] are set. *)
Definition completion_consistent (a : TaskAction) : bool :=
  Bool.eqb (a_completed a) (is_set (a_completedAt a) && is_set (a_completedBy a)).

Definition is_chat_event (e : Event) : bool :=
  match e with EvChat _ => true | _ => false end.

Definition is_write_event (e : Event) : bool :=
  match e with EvWrite _ => true | _ => false end.

Definition is_activity_event (e : Event) : bool :=
  match e with EvActivity _ => true | _ => false end.

(** [env_ok] with the notification service throwing. *)
Definition env_notify_fails : Env :=
  mkEnv 100 (Some "u1") "Ana" "t9" (Some "Projeto") false true true "Ana" "Admin" "m1"
        (fun _ => "01/01/2026").

(** [env_ok] with the activity service throwing. *)
Definition env_activity_fails : Env :=
  mkEnv 100 (Some "u1") "Ana" "t9" (Some "Projeto") true false true "Ana" "Admin" "m1"
        (fun _ => "01/01/2026").

(** The fields of a task that no update operation touches. *)
Definition keeps_header (t t' : TaskSchema) : Prop :=
  t_id t' = t_id t /\ t_title t' = t_title t /\ t_description t' = t_description t /\
  t_projectId t' = t_projectId t /\ t_assignedTo t' = t_assignedTo t /\
  t_createdBy t' = t_createdBy t /\ t_priority t' = t_priority t /\
  t_difficultyLevel t' = t_difficultyLevel t /\ t_coinsReward t' = t_coinsReward t /\
  t_dueDate t' = t_dueDate t /\ t_createdAt t' = t_createdAt t.

(** An action with its [data] field dropped. *)
Definition without_data (a : TaskAction) : TaskAction :=
  mkAction (a_id a) (a_title a) (a_type a) (a_completed a) (a_completedAt a)
           (a_completedBy a) (a_description a) (a_required a) None.

(** * Proofs *)

Ltac unfold_monad :=
  unfold bind, ret, throw, emit, get_world, log_rethrow, catch_ui in *.

(** [updateTask] when the document exists and every collaborator answers. *)
Lemma updateTask_success (env : Env) (w : World) (taskId pn : string)
    (t : TaskSchema) (u : TaskUpdate) :
  task_in w taskId = Some t ->
  e_projectName env = Some pn ->
  e_activity_ok env = true ->
  let t' := apply_update u (e_now env) t in
  updateTask env taskId u w =
    (Ok t', mkWorld (<[taskId := t']> (w_tasks w)) (w_chat w)
                    (w_trace w ++ EvWrite taskId :: update_events env u t' pn)).
Proof.
  unfold task_in; intros Ht Hpn Hact; cbv zeta.
  unfold updateTask, update_doc, getTaskById, get_doc, getProjectById, logActivity.
  rewrite Hpn, Hact. unfold_monad. cbn. rewrite Ht. cbn.
  rewrite lookup_insert_eq. cbn.
  unfold update_events. destruct (u_status u); cbn;
    repeat rewrite <- app_assoc; reflexivity.
Qed.

(** [updateTask] writes before it calls any collaborator: whatever they do,
    the document holds the update. *)
Lemma updateTask_commits (env : Env) (w : World) (taskId : string)
    (t : TaskSchema) (u : TaskUpdate) :
  task_in w taskId = Some t ->
  task_in (snd (updateTask env taskId u w)) taskId = Some (apply_update u (e_now env) t).
Proof.
  unfold task_in; intros Ht.
  unfold updateTask, update_doc, getTaskById, get_doc, getProjectById, logActivity.
  unfold_monad. cbn. rewrite Ht. cbn. rewrite lookup_insert_eq. cbn.
  destruct (e_projectName env); cbn; [| rewrite lookup_insert_eq; reflexivity].
  destruct (e_activity_ok env); cbn; [| rewrite lookup_insert_eq; reflexivity].
  destruct (u_status u); cbn; [| rewrite lookup_insert_eq; reflexivity].
  destruct (e_activity_ok env); cbn; rewrite lookup_insert_eq; reflexivity.
Qed.

(** The submission handler when the document exists and every collaborator
    answers: it reports no error and the stored status is
    [waiting_approval]. *)
Lemma handleSubmitForApproval_success (env : Env) (w : World) (taskId pn : string)
    (t : TaskSchema) :
  task_in w taskId = Some t ->
  e_projectName env = Some pn ->
  e_activity_ok env = true ->
  e_chat_ok env = true ->
  let r := handleSubmitForApproval env taskId w in
  fst r = Ok None /\
  task_in (snd r) taskId = Some (apply_update (status_update waiting_approval) (e_now env) t) /\
  w_chat (snd r) = (w_chat w ++
    [mkMsg (e_msgId env) (t_projectId t)
       (m_content (submission_message env (apply_update (status_update waiting_approval) (e_now env) t)))
       (e_now env) task_submission
       (Some (task_link (apply_update (status_update waiting_approval) (e_now env) t))) None])%list.
Proof.
  intros Ht Hpn Hact Hchat; cbv zeta.
  unfold handleSubmitForApproval, catch_ui, bind.
  rewrite (updateTask_success env w taskId pn t _ Ht Hpn Hact).
  unfold addSystemMessageToProjectChat. rewrite Hchat. cbn.
  unfold task_in; cbn. rewrite lookup_insert_eq. auto.
Qed.

Lemma submit_visible_required_done (t : TaskSchema) (a : TaskAction) :
  submit_visible t = true -> In a (t_actions t) -> a_completed a = true.
Proof.
  unfold submit_visible, allActionsCompleted.
  intros Hv Hin. apply andb_prop in Hv as [Hv _]. apply andb_prop in Hv as [Hv _].
  apply andb_prop in Hv as [_ Hall].
  rewrite forallb_forall in Hall. auto.
Qed.

Lemma status_controls_spec (is_admin : bool) (t : TaskSchema) (s : Status) :
  In s (status_controls is_admin t) ->
  (s = waiting_approval /\ allActionsCompleted t = true /\
   t_status t <> waiting_approval /\ t_status t <> completed) \/
  ((s = completed \/ s = pending) /\ is_admin = true /\ t_status t = waiting_approval).
Proof.
  unfold status_controls, submit_visible, admin_buttons_visible.
  destruct (allActionsCompleted t) eqn:Hall; destruct is_admin;
    destruct (t_status t) eqn:Hs; cbn; intros Hin;
    repeat match goal with
           | H : _ \/ _ |- _ => destruct H as [<- | H]
           | H : False |- _ => destruct H
           end;
    first [ left; repeat split; congruence
          | right; split; [auto | split; reflexivity] ].
Qed.

(** ** C1: submission guard *)

(** C1 (counterexample). A task whose only required action is incomplete:
    the submission handler reports no error and writes
    [status = waiting_approval]; no guard refuses it. *)
Lemma C1_counterexample :
  let t := sample_task pending [act_open "a1" true; act_done "a2" false] in
  has_incomplete_required t = true /\
  fst (handleSubmitForApproval env_ok "t1" (world_of t)) = Ok None /\
  status_in (snd (handleSubmitForApproval env_ok "t1" (world_of t))) "t1"
    = Some waiting_approval.
Proof. vm_compute. auto. Qed.

(** C1 (amended). Neither [handleSubmitForApproval] nor [updateTask] checks
    the actions: for any stored task, submission reports no error and
    stores [status = waiting_approval] whatever the actions' state. The only
    gate is the page's submit button, rendered only when the task has at
    least one action and every action, required or not, is completed:
    so it implies every required action is complete, and it is withheld
    when any action (also a non-required one) is incomplete or the list is
    empty. *)
Theorem C1_submission_unguarded :
  (forall (env : Env) (w : World) (taskId pn : string) (t : TaskSchema),
     task_in w taskId = Some t -> e_projectName env = Some pn ->
     e_activity_ok env = true -> e_chat_ok env = true ->
     fst (handleSubmitForApproval env taskId w) = Ok None /\
     status_in (snd (handleSubmitForApproval env taskId w)) taskId = Some waiting_approval)
  /\ (forall (t : TaskSchema) (a : TaskAction),
        submit_visible t = true -> In a (t_actions t) -> a_required a = true ->
        a_completed a = true)
  /\ (forall (t : TaskSchema) (a : TaskAction),
        In a (t_actions t) -> a_completed a = false -> submit_visible t = false)
  /\ (forall t : TaskSchema, t_actions t = [] -> submit_visible t = false).
Proof.
  split; [| split; [| split]].
  - intros env w taskId pn t Ht Hpn Hact Hchat.
    destruct (handleSubmitForApproval_success env w taskId pn t Ht Hpn Hact Hchat)
      as [Hr [Hst _]].
    split; [exact Hr |]. unfold status_in. rewrite Hst. reflexivity.
  - intros t a Hv Hin _. exact (submit_visible_required_done t a Hv Hin).
  - intros t a Hin Hc. destruct (submit_visible t) eqn:Hv; [| reflexivity].
    rewrite (submit_visible_required_done t a Hv Hin) in Hc. discriminate.
  - intros t Hnil. unfold submit_visible, allActionsCompleted. rewrite Hnil. reflexivity.
Qed.

Lemma C1_submission_unguarded_witness :
  task_in (world_of (sample_task pending [act_open "a1" true])) "t1"
    = Some (sample_task pending [act_open "a1" true]) /\
  status_in (snd (handleSubmitForApproval env_ok "t1"
                    (world_of (sample_task pending [act_open "a1" true])))) "t1"
    = Some waiting_approval.
Proof.
  split; [reflexivity |].
  apply (proj1 C1_submission_unguarded env_ok _ "t1" "Projeto"
           (sample_task pending [act_open "a1" true])); reflexivity.
Defined.

(** ** C2: transitions out of [completed] *)

(** C2 (counterexample). Approving a task in [waiting_approval] and then
    running the revert-to-pending handler on the now completed task: the
    revert reports no error and stores [status = pending]. *)
Lemma C2_counterexample :
  let w0 := world_of (sample_task waiting_approval [act_done "a1" true]) in
  let w1 := snd (handleCompleteTask env_ok "t1" w0) in
  status_in w1 "t1" = Some completed /\
  fst (handleRevertToPending env_ok "t1" w1) = Ok None /\
  status_in (snd (handleRevertToPending env_ok "t1" w1)) "t1" = Some pending.
Proof. vm_compute. auto. Qed.

(** C2 (amended). [updateTask] checks no transition and never rejects a
    status: from any current status of a stored task it stores the
    requested one. Transitions are restricted only by the page's controls:
    submission is offered only outside [waiting_approval] and [completed],
    approval and revert only to admins in [waiting_approval]; in particular
    a [completed] task shows no status control at all. *)
Theorem C2_no_transition_check :
  (forall (env : Env) (w : World) (taskId pn : string) (t : TaskSchema) (s : Status),
     task_in w taskId = Some t -> e_projectName env = Some pn -> e_activity_ok env = true ->
     fst (updateTask env taskId (status_update s) w)
       = Ok (apply_update (status_update s) (e_now env) t) /\
     status_in (snd (updateTask env taskId (status_update s) w)) taskId = Some s)
  /\ (forall (is_admin : bool) (t : TaskSchema) (s : Status),
        In s (status_controls is_admin t) ->
        (s = waiting_approval /\ t_status t <> waiting_approval /\ t_status t <> completed) \/
        ((s = completed \/ s = pending) /\ is_admin = true /\ t_status t = waiting_approval))
  /\ (forall (is_admin : bool) (t : TaskSchema),
        t_status t = completed -> status_controls is_admin t = []).
Proof.
  split; [| split].
  - intros env w taskId pn t s Ht Hpn Hact.
    rewrite (updateTask_success env w taskId pn t _ Ht Hpn Hact). cbn.
    split; [reflexivity |]. unfold status_in, task_in. cbn.
    rewrite lookup_insert_eq. reflexivity.
  - intros is_admin t s Hin.
    destruct (status_controls_spec is_admin t s Hin) as [(? & _ & ? & ?) | ?]; auto.
  - intros is_admin t Hc. unfold status_controls, submit_visible, admin_buttons_visible.
    rewrite Hc. cbn. rewrite andb_false_r. destruct is_admin; reflexivity.
Qed.

Lemma C2_no_transition_check_witness :
  status_in (snd (updateTask env_ok "t1" (status_update pending)
                    (world_of (sample_task completed [act_done "a1" true])))) "t1"
    = Some pending.
Proof.
  apply (proj1 C2_no_transition_check env_ok _ "t1" "Projeto"
           (sample_task completed [act_done "a1" true]) pending); reflexivity.
Defined.

(** ** C3: the reward *)

Lemma createTask_stores (env : Env) (s : Settings) (ti : TaskInput) (w : World) :
  task_in (snd (createTask env s ti w)) (e_newId env)
    = Some (new_task env s ti (match ti_actions ti with Some l => l | None => [] end)).
Proof.
  unfold createTask, set_doc, createNotification, getProjectById, logActivity, task_in.
  unfold_monad. cbn.
  destruct (String.eqb (ti_assignedTo ti) ""); cbn;
    [| destruct (e_notify_ok env); cbn; [| rewrite lookup_insert_eq; reflexivity]];
    (destruct (e_projectName env); cbn; [| rewrite lookup_insert_eq; reflexivity]);
    destruct (e_activity_ok env); cbn; rewrite lookup_insert_eq; reflexivity.
Qed.

Lemma createTaskWithTemplate_stores (env : Env) (s : Settings) (ti : TaskInput)
    (tpl : ActionTemplate) (w : World) :
  actions_defined (createActionsFromTemplate (e_now env) tpl) = true ->
  task_in (snd (createTaskWithTemplate env s ti (Some tpl) w)) (e_newId env)
    = Some (new_task env s ti (createActionsFromTemplate (e_now env) tpl)).
Proof.
  intros Hd.
  unfold createTaskWithTemplate, set_doc, getProjectById, logActivity, task_in.
  unfold_monad. cbn. rewrite Hd. cbn.
  (destruct (e_projectName env); cbn; [| rewrite lookup_insert_eq; reflexivity]);
    destruct (e_activity_ok env); cbn; rewrite lookup_insert_eq; reflexivity.
Qed.

Lemma finite_value_nonneg (m : positive) (e : Z) : (0 <= finite_value false m e)%Q.
Proof.
  unfold finite_value. destruct e as [| p | p]; unfold Qle; cbn; lia.
Qed.

(** C3 (counterexample). [Math.round] breaks ties towards +infinity and
    works on the rounded double product. With difficultyLevel 1,
    taskCompletionBase -5 and complexityMultiplier 0.5 the product is -2.5;
    [createTask] stores -2 where rounding ties away from zero gives -3.
    With difficultyLevel 3, taskCompletionBase 1.4 and complexityMultiplier
    2.5 the real product is 10.5, rounded away from zero to 11, but the
    double product [3 * 1.4 * 2.5] is just below 10.5 and [createTask]
    stores 10. *)
Lemma C3_counterexample :
  option_map t_coinsReward
    (task_in (snd (createTask env_ok (mkSettings (double_of_Z (-5)) (double_of_dec 5 1))
                     (mkInput "T" "" "p1" "" medium (double_of_Z 1) 0 None)
                     (mkWorld ∅ [] []))) "t9")
    = Some (double_of_Z (-2)) /\
  spec_round_half_away (1 * -5 * (5 # 10))%Q = (-3)%Z /\
  option_map t_coinsReward
    (task_in (snd (createTask env_ok (mkSettings (double_of_dec 14 1) (double_of_dec 25 1))
                     (mkInput "T" "" "p1" "" medium (double_of_Z 3) 0 None)
                     (mkWorld ∅ [] []))) "t9")
    = Some (double_of_Z 10) /\
  spec_round_half_away (3 * (14 # 10) * (25 # 10))%Q = 11%Z.
Proof. vm_compute. repeat split. Qed.

(** C3 (amended). Both creation paths store
    [coinsReward = Math.round(d * b * m)] computed on doubles: [d * b] and
    then [(d * b) * m] are each rounded to the nearest double, and
    [Math.round] takes [floor(x + 1/2)] of that double, i.e. the nearest
    integer with ties towards +infinity ([createTaskWithTemplate] stores a
    task only when the template's default values are all defined). For a
    positive double product this is rounding ties away from zero of its
    value, and d=3, b=10, m=1.5 gives 45. *)
Theorem C3_reward_math_round :
  (forall (env : Env) (s : Settings) (ti : TaskInput) (w : World),
     option_map t_coinsReward (task_in (snd (createTask env s ti w)) (e_newId env))
       = Some (js_round (dmul (dmul (ti_difficultyLevel ti) (taskCompletionBase s))
                              (complexityMultiplier s))))
  /\ (forall (env : Env) (s : Settings) (ti : TaskInput) (tpl : ActionTemplate) (w : World),
        actions_defined (createActionsFromTemplate (e_now env) tpl) = true ->
        option_map t_coinsReward
          (task_in (snd (createTaskWithTemplate env s ti (Some tpl) w)) (e_newId env))
        = Some (js_round (dmul (dmul (ti_difficultyLevel ti) (taskCompletionBase s))
                               (complexityMultiplier s))))
  /\ (forall (m : positive) (e : Z),
        js_round (S754_finite false m e)
          = double_of_Z (spec_round_half_away (finite_value false m e)))
  /\ (forall (ti : TaskInput) (s : Settings),
        ti_difficultyLevel ti = double_of_Z 3 -> taskCompletionBase s = double_of_Z 10 ->
        complexityMultiplier s = double_of_dec 15 1 -> coins_reward ti s = double_of_Z 45).
Proof.
  split; [| split; [| split]].
  - intros. rewrite createTask_stores. reflexivity.
  - intros env s ti tpl w Hd. rewrite (createTaskWithTemplate_stores env s ti tpl w Hd).
    reflexivity.
  - intros m e. unfold spec_round_half_away.
    pose proof (finite_value_nonneg m e) as Hx. apply Qle_bool_iff in Hx. rewrite Hx.
    unfold js_round. fold (finite_value false m e).
    destruct (Z.eqb (Qfloor (finite_value false m e + (1 # 2))) 0) eqn:E.
    + apply Z.eqb_eq in E. rewrite E. reflexivity.
    + reflexivity.
  - intros ti s Hd Hb Hm. unfold coins_reward. rewrite Hd, Hb, Hm. vm_compute. reflexivity.
Qed.

Lemma C3_reward_math_round_witness :
  coins_reward (mkInput "T" "" "p1" "" medium (double_of_Z 3) 0 None)
               (mkSettings (double_of_Z 10) (double_of_dec 15 1)) = double_of_Z 45 /\
  option_map t_coinsReward
    (task_in (snd (createTaskWithTemplate env_ok (mkSettings (double_of_Z 10) (double_of_dec 15 1))
                     (mkInput "T" "" "p1" "" medium (double_of_Z 3) 0 None)
                     (Some (mkTemplate [mkElement "Nota" "text" None None (VStr "") ∅]))
                     (mkWorld ∅ [] []))) "t9")
    = Some (js_round (dmul (dmul (double_of_Z 3) (double_of_Z 10)) (double_of_dec 15 1))).
Proof.
  split.
  - apply (proj2 (proj2 (proj2 C3_reward_math_round))); reflexivity.
  - apply (proj1 (proj2 C3_reward_math_round) env_ok). vm_compute. reflexivity.
Defined.

(** ** The ledger operations on a stored task *)

(** [completeTaskAction] on a stored task: the write happens exactly when
    its payload holds no [undefined]. *)
Lemma completeTaskAction_exact (env : Env) (w : World) (taskId actionId : string)
    (t : TaskSchema) (data : option Obj) :
  task_in w taskId = Some t ->
  let ok := complete_accepted (e_uid env) actionId data (t_actions t) in
  fst (completeTaskAction env taskId actionId data w)
    = (if ok then Ok tt else Fail InvalidArgument) /\
  w_tasks (snd (completeTaskAction env taskId actionId data w))
    = (if ok then <[taskId := with_actions t
                               (map (complete_action (e_now env) (e_uid env) actionId data)
                                    (t_actions t)) (e_now env)]> (w_tasks w)
       else w_tasks w).
Proof.
  unfold task_in; intros Ht; cbv zeta.
  unfold completeTaskAction, get_doc, update_doc. unfold_monad. cbn.
  rewrite Ht. cbn.
  destruct (complete_accepted (e_uid env) actionId data (t_actions t)); cbn;
    [rewrite Ht |]; auto.
Qed.

Lemma completeTaskAction_success (env : Env) (w : World) (taskId actionId : string)
    (t : TaskSchema) (data : option Obj) :
  task_in w taskId = Some t ->
  complete_accepted (e_uid env) actionId data (t_actions t) = true ->
  fst (completeTaskAction env taskId actionId data w) = Ok tt /\
  task_in (snd (completeTaskAction env taskId actionId data w)) taskId
    = Some (with_actions t (map (complete_action (e_now env) (e_uid env) actionId data)
                                (t_actions t)) (e_now env)).
Proof.
  intros Ht Hok.
  destruct (completeTaskAction_exact env w taskId actionId t data Ht) as [H1 H2].
  cbv zeta in H1, H2. rewrite Hok in H1, H2. split; [exact H1 |].
  unfold task_in. rewrite H2. apply lookup_insert_eq.
Qed.

Lemma uncompleteTaskAction_success (env : Env) (w : World) (taskId actionId : string)
    (t : TaskSchema) :
  task_in w taskId = Some t ->
  fst (uncompleteTaskAction env taskId actionId w) = Ok tt /\
  task_in (snd (uncompleteTaskAction env taskId actionId w)) taskId
    = Some (with_actions t (map (uncomplete_action actionId) (t_actions t)) (e_now env)).
Proof.
  unfold task_in; intros Ht.
  unfold uncompleteTaskAction, get_doc, update_doc. unfold_monad. cbn.
  rewrite Ht. cbn. rewrite Ht. cbn. rewrite lookup_insert_eq. auto.
Qed.

(** The revised [completeTaskAction] once the callback has produced the
    action list [acts]: the write happens exactly when its payload holds no
    [undefined]. *)
Lemma completeTaskAction2_exact (env : Env) (w : World) (taskId actionId : string)
    (t : TaskSchema) (data : option Obj) (acts : list TaskAction) :
  task_in w taskId = Some t ->
  map_res (complete_action2 (e_now env) (e_uid env) actionId data) (t_actions t) = Ok acts ->
  let ok := complete2_accepted (e_uid env) actionId data (t_actions t) in
  fst (completeTaskAction2 env taskId actionId data w)
    = (if ok then Ok tt else Fail InvalidArgument) /\
  w_tasks (snd (completeTaskAction2 env taskId actionId data w))
    = (if ok then <[taskId := with_actions t acts (e_now env)]> (w_tasks w) else w_tasks w).
Proof.
  unfold task_in; intros Ht Hm; cbv zeta.
  unfold completeTaskAction2, get_doc, update_doc. unfold_monad. cbn.
  rewrite Ht. cbn. rewrite Hm. cbn.
  destruct (complete2_accepted (e_uid env) actionId data (t_actions t)); cbn;
    [rewrite Ht |]; auto.
Qed.

Lemma completeTaskAction2_result (env : Env) (w : World) (taskId actionId : string)
    (t : TaskSchema) (data : option Obj) (acts : list TaskAction) :
  task_in w taskId = Some t ->
  map_res (complete_action2 (e_now env) (e_uid env) actionId data) (t_actions t) = Ok acts ->
  complete2_accepted (e_uid env) actionId data (t_actions t) = true ->
  fst (completeTaskAction2 env taskId actionId data w) = Ok tt /\
  task_in (snd (completeTaskAction2 env taskId actionId data w)) taskId
    = Some (with_actions t acts (e_now env)).
Proof.
  intros Ht Hm Hok.
  destruct (completeTaskAction2_exact env w taskId actionId t data acts Ht Hm) as [H1 H2].
  cbv zeta in H1, H2. rewrite Hok in H1, H2. split; [exact H1 |].
  unfold task_in. rewrite H2. apply lookup_insert_eq.
Qed.

Lemma complete_accepted_nomatch (uid : option string) (actionId : string)
    (data : option Obj) (l : list TaskAction) :
  Forall (fun a => a_id a <> actionId) l ->
  complete_accepted uid actionId data l = true.
Proof.
  induction 1 as [| a l Ha _ IH]; [reflexivity |].
  unfold complete_accepted in *; cbn. apply String.eqb_neq in Ha. rewrite Ha. exact IH.
Qed.

Lemma complete2_accepted_nomatch (uid : option string) (actionId : string)
    (data : option Obj) (l : list TaskAction) :
  Forall (fun a => a_id a <> actionId) l ->
  complete2_accepted uid actionId data l = true.
Proof.
  induction 1 as [| a l Ha _ IH]; [reflexivity |].
  unfold complete2_accepted in *; cbn. apply String.eqb_neq in Ha. rewrite Ha. exact IH.
Qed.

Lemma map_complete_action_nomatch (now : Z) (uid : option string) (actionId : string)
    (data : option Obj) (l : list TaskAction) :
  Forall (fun a => a_id a <> actionId) l ->
  map (complete_action now uid actionId data) l = l.
Proof.
  induction 1 as [| a l Ha _ IH]; cbn; [reflexivity |].
  unfold complete_action at 1. apply String.eqb_neq in Ha. rewrite Ha, IH. reflexivity.
Qed.

Lemma map_uncomplete_action_nomatch (actionId : string) (l : list TaskAction) :
  Forall (fun a => a_id a <> actionId) l ->
  map (uncomplete_action actionId) l = l.
Proof.
  induction 1 as [| a l Ha _ IH]; cbn; [reflexivity |].
  unfold uncomplete_action at 1. apply String.eqb_neq in Ha. rewrite Ha, IH. reflexivity.
Qed.

Lemma map_res_complete_action2_nomatch (now : Z) (uid : option string) (actionId : string)
    (data : option Obj) (l : list TaskAction) :
  Forall (fun a => a_id a <> actionId) l ->
  map_res (complete_action2 now uid actionId data) l = Ok l.
Proof.
  induction 1 as [| a l Ha _ IH]; cbn; [reflexivity |].
  unfold complete_action2 at 1. apply String.eqb_neq in Ha. rewrite Ha, IH. reflexivity.
Qed.

(** ** C4: unknown action identifiers *)

(** C4 (counterexample). Completing or uncompleting the identifier "zz",
    which no action of the task carries, does not fail: both services
    resolve normally. *)
Lemma C4_counterexample :
  let w := world_of (sample_task pending [act_open "a1" true]) in
  fst (completeTaskAction env_ok "t1" "zz" None w) = Ok tt /\
  fst (uncompleteTaskAction env_ok "t1" "zz" w) = Ok tt.
Proof. vm_compute. auto. Qed.

(** C4 (amended). On a stored task, [completeTaskAction] (both revisions)
    and [uncompleteTaskAction] with an identifier no action carries do not
    fail: they resolve normally and write the action sequence back
    unchanged, only [updatedAt] being set to the current time. *)
Theorem C4_unknown_action_noop (env : Env) (w : World) (taskId actionId : string)
    (t : TaskSchema) (data : option Obj) :
  task_in w taskId = Some t ->
  Forall (fun a => a_id a <> actionId) (t_actions t) ->
  (fst (completeTaskAction env taskId actionId data w) = Ok tt /\
   task_in (snd (completeTaskAction env taskId actionId data w)) taskId
     = Some (with_actions t (t_actions t) (e_now env)))
  /\ (fst (completeTaskAction2 env taskId actionId data w) = Ok tt /\
      task_in (snd (completeTaskAction2 env taskId actionId data w)) taskId
        = Some (with_actions t (t_actions t) (e_now env)))
  /\ (fst (uncompleteTaskAction env taskId actionId w) = Ok tt /\
      task_in (snd (uncompleteTaskAction env taskId actionId w)) taskId
        = Some (with_actions t (t_actions t) (e_now env))).
Proof.
  intros Ht Hno. split; [| split].
  - rewrite <- (map_complete_action_nomatch (e_now env) (e_uid env) actionId data _ Hno).
    exact (completeTaskAction_success env w taskId actionId t data Ht
             (complete_accepted_nomatch _ _ _ _ Hno)).
  - apply completeTaskAction2_result; [exact Ht | |].
    + apply map_res_complete_action2_nomatch. exact Hno.
    + apply complete2_accepted_nomatch. exact Hno.
  - rewrite <- (map_uncomplete_action_nomatch actionId _ Hno).
    exact (uncompleteTaskAction_success env w taskId actionId t Ht).
Qed.

Lemma C4_unknown_action_noop_witness :
  fst (uncompleteTaskAction env_ok "t1" "zz" (world_of (sample_task pending [act_open "a1" true])))
    = Ok tt.
Proof.
  apply (C4_unknown_action_noop env_ok _ "t1" "zz" (sample_task pending [act_open "a1" true]) None).
  - reflexivity.
  - repeat constructor; discriminate.
Defined.

(** ** C5: completing then uncompleting *)

Lemma uncomplete_complete_action (now : Z) (uid : option string) (actionId : string)
    (data : option Obj) (a : TaskAction) :
  uncomplete_action actionId (complete_action now uid actionId data a)
    = if String.eqb (a_id a) actionId
      then reset_with_data a (merge_data data (a_data a)) else a.
Proof.
  unfold complete_action, uncomplete_action.
  destruct (String.eqb (a_id a) actionId) eqn:E; cbn; rewrite E; reflexivity.
Qed.

(** C5. On a stored task, [completeTaskAction] followed by
    [uncompleteTaskAction] on the same identifier leaves every other action
    unchanged and turns the matched action into itself with
    [completed = false], [completedAt] and [completedBy] absent, and [data]
    as completion merged it (unchanged when no patch was given, or when the
    completion's write was refused for holding [undefined]; not cleared by
    the uncompletion). An action that was open ([completed = false], no
    [completedAt]/[completedBy]) thus comes back equal to the original up to
    [data]. *)
Theorem C5_complete_uncomplete_restores (env1 env2 : Env) (w : World)
    (taskId actionId : string) (t : TaskSchema) (data : option Obj) :
  task_in w taskId = Some t ->
  task_in (snd (uncompleteTaskAction env2 taskId actionId
                  (snd (completeTaskAction env1 taskId actionId data w)))) taskId
    = Some (with_actions t
              (map (fun a => if String.eqb (a_id a) actionId
                             then reset_with_data a
                                    (if complete_accepted (e_uid env1) actionId data (t_actions t)
                                     then merge_data data (a_data a) else a_data a)
                             else a)
                   (t_actions t))
              (e_now env2))
  /\ (forall d : option Obj, merge_data None d = d)
  /\ (forall a : TaskAction, a_completed a = false -> a_completedAt a = None ->
        a_completedBy a = None -> reset_with_data a (a_data a) = a).
Proof.
  intros Ht. split; [| split].
  - destruct (completeTaskAction_exact env1 w taskId actionId t data Ht) as [_ H1].
    cbv zeta in H1.
    destruct (complete_accepted (e_uid env1) actionId data (t_actions t)).
    + assert (H1' : task_in (snd (completeTaskAction env1 taskId actionId data w)) taskId
                    = Some (with_actions t (map (complete_action (e_now env1) (e_uid env1)
                                                   actionId data) (t_actions t)) (e_now env1)))
        by (unfold task_in; rewrite H1; apply lookup_insert_eq).
      rewrite (proj2 (uncompleteTaskAction_success env2 _ taskId actionId _ H1')).
      cbn. rewrite map_map. f_equal. unfold with_actions; cbn. f_equal.
      apply map_ext. intros a. apply uncomplete_complete_action.
    + assert (H1' : task_in (snd (completeTaskAction env1 taskId actionId data w)) taskId
                    = Some t) by (unfold task_in in *; rewrite H1; exact Ht).
      rewrite (proj2 (uncompleteTaskAction_success env2 _ taskId actionId _ H1')).
      reflexivity.
  - reflexivity.
  - intros [] ; cbn; intros -> -> ->. reflexivity.
Qed.

Lemma C5_complete_uncomplete_restores_witness :
  task_in (snd (uncompleteTaskAction env_ok "t1" "a1"
                  (snd (completeTaskAction env_ok "t1" "a1" None
                          (world_of (sample_task pending [act_open "a1" true]))))))
          "t1"
    = Some (with_actions (sample_task pending [act_open "a1" true])
              [act_open "a1" true] 100).
Proof.
  rewrite (proj1 (C5_complete_uncomplete_restores env_ok env_ok
                    (world_of (sample_task pending [act_open "a1" true])) "t1" "a1"
                    (sample_task pending [act_open "a1" true]) None eq_refl)).
  reflexivity.
Defined.

(** ** C6: merging the patch into [data] *)

Lemma map_res_complete_action2_undefined (now : Z) (uid : option string) (actionId : string)
    (l : list TaskAction) :
  Exists (fun a => a_id a = actionId) l ->
  map_res (complete_action2 now uid actionId None) l = Fail TypeErrorUndefined.
Proof.
  induction 1 as [a l Ha | a l _ IH]; cbn; unfold complete_action2 at 1.
  - rewrite Ha, String.eqb_refl. reflexivity.
  - destruct (String.eqb (a_id a) actionId); [reflexivity |]. rewrite IH. reflexivity.
Qed.

(** The callback of the revised [completeTaskAction] with a patch [p]. *)
Lemma map_res_complete_action2_some (now : Z) (uid : option string) (actionId : string)
    (p : Obj) (l : list TaskAction) :
  map_res (complete_action2 now uid actionId (Some p)) l
    = Ok (map (fun a => if String.eqb (a_id a) actionId
                        then mkAction (a_id a) (a_title a) (a_type a) true (Some now) uid
                                      (a_description a) (a_required a)
                                      (Some (<["value" := patch_value p]> (obj_of (a_data a))))
                        else a) l).
Proof.
  induction l as [| a l IH]; cbn; [reflexivity |].
  unfold complete_action2 at 1. rewrite IH.
  destruct (String.eqb (a_id a) actionId); reflexivity.
Qed.

Lemma complete2_accepted_defined (uid : option string) (actionId : string) (p : Obj)
    (l : list TaskAction) :
  is_set uid = true -> value_defined (patch_value p) = true ->
  complete2_accepted uid actionId (Some p) l = true.
Proof.
  intros Hu Hv. unfold complete2_accepted. apply forallb_forall. intros a _.
  rewrite Hu, Hv. destruct (String.eqb (a_id a) actionId); reflexivity.
Qed.

Lemma complete2_accepted_undefined (uid : option string) (actionId : string) (p : Obj)
    (l : list TaskAction) :
  Exists (fun a => a_id a = actionId) l -> value_defined (patch_value p) = false ->
  complete2_accepted uid actionId (Some p) l = false.
Proof.
  intros Hex Hv. unfold complete2_accepted.
  induction Hex as [a l Ha | a l _ IH]; cbn.
  - rewrite Ha, String.eqb_refl, Hv, andb_false_r. reflexivity.
  - rewrite IH, andb_false_r. reflexivity.
Qed.

(** C6 (counterexample). With the revised [completeTaskAction], a
    signed-in user completing action "a1" with the patch
    [{ value: 1, note: 'x' }] succeeds, and the stored [data] has no key
    [note]: only [value] is merged. *)
Lemma C6_counterexample :
  let p : Obj := <["note" := VStr "x"]> {["value" := VNum (double_of_Z 1)]} in
  let r := completeTaskAction2 env_ok "t1" "a1" (Some p)
             (world_of (sample_task pending [act_open "a1" true])) in
  p !! "note" = Some (VStr "x") /\
  fst r = Ok tt /\
  option_map (fun t => map (fun a => option_map (fun d : Obj => d !! "note") (a_data a))
                           (t_actions t))
             (task_in (snd r) "t1")
    = Some [Some None].
Proof. vm_compute. auto. Qed.

(** C6 (amended). In the first [completeTaskAction] the matched action's
    [data] becomes the shallow merge of the patch over it (patch keys win,
    other keys kept) and stays unchanged without a patch; the task is
    stored with these actions whenever the payload holds no [undefined].
    The revised [completeTaskAction] (second TaskService) merges only
    [value]: for a signed-in user and a patch whose [value] is defined, it
    succeeds and the matched actions' [data] is the old one with [value]
    set to the patch's [value], every other patch key dropped; a patch
    without a defined [value] makes Firestore refuse the write
    (invalid-argument, task unchanged) when the action exists; called
    without a patch on a task holding the action, it fails with a
    TypeError. *)
Theorem C6_patch_merge :
  (forall (now : Z) (uid : option string) (actionId : string) (p : Obj)
          (a : TaskAction) (k : string),
     a_id a = actionId ->
     obj_of (a_data (complete_action now uid actionId (Some p) a)) !! k
       = match p !! k with Some v => Some v | None => obj_of (a_data a) !! k end)
  /\ (forall (now : Z) (uid : option string) (actionId : string) (a : TaskAction),
        a_data (complete_action now uid actionId None a) = a_data a)
  /\ (forall (env : Env) (w : World) (taskId actionId : string) (t : TaskSchema)
             (data : option Obj),
        task_in w taskId = Some t ->
        complete_accepted (e_uid env) actionId data (t_actions t) = true ->
        task_in (snd (completeTaskAction env taskId actionId data w)) taskId
          = Some (with_actions t (map (complete_action (e_now env) (e_uid env) actionId data)
                                      (t_actions t)) (e_now env)))
  /\ (forall (env : Env) (w : World) (taskId actionId : string) (t : TaskSchema) (p : Obj),
        task_in w taskId = Some t ->
        is_set (e_uid env) = true -> value_defined (patch_value p) = true ->
        fst (completeTaskAction2 env taskId actionId (Some p) w) = Ok tt /\
        task_in (snd (completeTaskAction2 env taskId actionId (Some p) w)) taskId
          = Some (with_actions t
                    (map (fun a => if String.eqb (a_id a) actionId
                                   then mkAction (a_id a) (a_title a) (a_type a) true
                                          (Some (e_now env)) (e_uid env)
                                          (a_description a) (a_required a)
                                          (Some (<["value" := patch_value p]>
                                                   (obj_of (a_data a))))
                                   else a) (t_actions t))
                    (e_now env)))
  /\ (forall (env : Env) (w : World) (taskId actionId : string) (t : TaskSchema) (p : Obj),
        task_in w taskId = Some t -> Exists (fun a => a_id a = actionId) (t_actions t) ->
        value_defined (patch_value p) = false ->
        fst (completeTaskAction2 env taskId actionId (Some p) w) = Fail InvalidArgument /\
        task_in (snd (completeTaskAction2 env taskId actionId (Some p) w)) taskId = Some t)
  /\ (forall (env : Env) (w : World) (taskId actionId : string) (t : TaskSchema),
        task_in w taskId = Some t -> Exists (fun a => a_id a = actionId) (t_actions t) ->
        fst (completeTaskAction2 env taskId actionId None w) = Fail TypeErrorUndefined).
Proof.
  split; [| split; [| split; [| split; [| split]]]].
  - intros now uid actionId p a k Ha. unfold complete_action.
    rewrite Ha, String.eqb_refl. cbn. rewrite lookup_union.
    destruct (p !! k), (obj_of (a_data a) !! k); reflexivity.
  - intros now uid actionId a. unfold complete_action.
    destruct (String.eqb (a_id a) actionId); reflexivity.
  - intros env w taskId actionId t data Ht Hok.
    exact (proj2 (completeTaskAction_success env w taskId actionId t data Ht Hok)).
  - intros env w taskId actionId t p Ht Hu Hv.
    apply completeTaskAction2_result; [exact Ht | |].
    + apply map_res_complete_action2_some.
    + apply complete2_accepted_defined; assumption.
  - intros env w taskId actionId t p Ht Hex Hv.
    destruct (completeTaskAction2_exact env w taskId actionId t (Some p) _ Ht
                (map_res_complete_action2_some _ _ _ _ _)) as [H1 H2].
    cbv zeta in H1, H2. rewrite (complete2_accepted_undefined _ _ _ _ Hex Hv) in H1, H2.
    split; [exact H1 |]. unfold task_in in *. rewrite H2. exact Ht.
  - intros env w taskId actionId t Ht Hex.
    unfold completeTaskAction2, get_doc. unfold_monad. cbn.
    unfold task_in in Ht. rewrite Ht. cbn.
    rewrite (map_res_complete_action2_undefined _ _ _ _ Hex). reflexivity.
Qed.

Lemma C6_patch_merge_witness :
  fst (completeTaskAction2 env_ok "t1" "a1" (Some {["value" := VBool true]})
         (world_of (sample_task pending [act_open "a1" true]))) = Ok tt /\
  fst (completeTaskAction2 env_ok "t1" "a1" (Some {["note" := VStr "x"]})
         (world_of (sample_task pending [act_open "a1" true]))) = Fail InvalidArgument /\
  fst (completeTaskAction2 env_ok "t1" "a1" None
         (world_of (sample_task pending [act_open "a1" true]))) = Fail TypeErrorUndefined /\
  task_in (snd (completeTaskAction env_ok "t1" "a1" None
                  (world_of (sample_task pending [act_open "a1" true])))) "t1"
    = Some (with_actions (sample_task pending [act_open "a1" true])
              (map (complete_action 100 (Some "u1") "a1" None) [act_open "a1" true]) 100).
Proof.
  split; [| split; [| split]].
  - apply (proj1 (proj1 (proj2 (proj2 (proj2 C6_patch_merge))) env_ok
                    (world_of (sample_task pending [act_open "a1" true])) "t1" "a1"
                    (sample_task pending [act_open "a1" true]) {["value" := VBool true]}
                    ltac:(vm_compute; reflexivity) ltac:(vm_compute; reflexivity)
                    ltac:(vm_compute; reflexivity))).
  - apply (proj1 (proj1 (proj2 (proj2 (proj2 (proj2 C6_patch_merge)))) env_ok
                    (world_of (sample_task pending [act_open "a1" true])) "t1" "a1"
                    (sample_task pending [act_open "a1" true]) {["note" := VStr "x"]}
                    ltac:(vm_compute; reflexivity) ltac:(constructor; reflexivity)
                    ltac:(vm_compute; reflexivity))).
  - apply (proj2 (proj2 (proj2 (proj2 (proj2 C6_patch_merge)))) env_ok
                    (world_of (sample_task pending [act_open "a1" true])) "t1" "a1"
             (sample_task pending [act_open "a1" true])).
    + reflexivity.
    + constructor. reflexivity.
  - apply (proj1 (proj2 (proj2 C6_patch_merge)) env_ok _ "t1" "a1"
             (sample_task pending [act_open "a1" true]) None); reflexivity.
Defined.

(** ** C7: [completed] iff [completedAt] and [completedBy] are set *)

Lemma complete_action_consistent (now : Z) (uid : option string) (actionId : string)
    (data : option Obj) (a : TaskAction) :
  (String.eqb (a_id a) actionId = true -> is_set uid = true) ->
  completion_consistent a = true ->
  completion_consistent (complete_action now uid actionId data a) = true.
Proof.
  intros Hu Ha. unfold complete_action.
  destruct (String.eqb (a_id a) actionId); [| exact Ha].
  unfold completion_consistent; cbn. rewrite (Hu eq_refl). reflexivity.
Qed.

Lemma uncomplete_action_consistent (actionId : string) (a : TaskAction) :
  completion_consistent a = true ->
  completion_consistent (uncomplete_action actionId a) = true.
Proof.
  intros Ha. unfold uncomplete_action.
  destruct (String.eqb (a_id a) actionId); [reflexivity | exact Ha].
Qed.

Lemma forallb_map_preserve (f : TaskAction -> TaskAction) (l : list TaskAction) :
  (forall a, In a l -> completion_consistent a = true -> completion_consistent (f a) = true) ->
  forallb completion_consistent l = true ->
  forallb completion_consistent (map f l) = true.
Proof.
  intros Hf. induction l as [| a l IH]; cbn; [reflexivity |].
  intros H. apply andb_prop in H as [Ha Hl].
  rewrite (Hf a (or_introl eq_refl) Ha).
  exact (IH (fun b Hb => Hf b (or_intror Hb)) Hl).
Qed.

Lemma map_res_complete_action2_consistent (now : Z) (uid : option string)
    (actionId : string) (data : option Obj) (l acts : list TaskAction) :
  complete2_accepted uid actionId data l = true -> forallb completion_consistent l = true ->
  map_res (complete_action2 now uid actionId data) l = Ok acts ->
  forallb completion_consistent acts = true.
Proof.
  revert acts. induction l as [| a l IH]; cbn; intros acts Hok Hl Hm.
  - injection Hm as <-. reflexivity.
  - unfold complete2_accepted in Hok; cbn in Hok. apply andb_prop in Hok as [Hoka Hok].
    apply andb_prop in Hl as [Ha Hl].
    destruct (complete_action2 now uid actionId data a) as [a' |] eqn:Ea; [| discriminate].
    destruct (map_res (complete_action2 now uid actionId data) l) as [acts' |];
      [| discriminate].
    injection Hm as <-. cbn. rewrite (IH acts' Hok Hl eq_refl), andb_true_r.
    revert Ea. unfold complete_action2.
    destruct (String.eqb (a_id a) actionId).
    + destruct data; [| discriminate]. intros [= <-].
      apply andb_prop in Hoka as [Hu _].
      unfold completion_consistent; cbn. rewrite Hu. reflexivity.
    + intros [= <-]. exact Ha.
Qed.

(** C7. The ledger operations preserve the invariant: on a stored task
    whose actions all satisfy it, after [uncompleteTaskAction] and after
    [completeTaskAction] (either revision, whether it succeeds or fails),
    every action of the task still satisfies [completed = true] iff
    [completedAt] and [completedBy] are both set. (A completion by a
    signed-out user would write [completedBy: undefined]; Firestore refuses
    that write and the task is left as it was.) *)
Theorem C7_ledger_preserves_invariant (env : Env) (w : World) (taskId actionId : string)
    (t : TaskSchema) (data : option Obj) :
  task_in w taskId = Some t ->
  forallb completion_consistent (t_actions t) = true ->
  option_map (fun t' => forallb completion_consistent (t_actions t'))
    (task_in (snd (completeTaskAction env taskId actionId data w)) taskId) = Some true
  /\ option_map (fun t' => forallb completion_consistent (t_actions t'))
       (task_in (snd (uncompleteTaskAction env taskId actionId w)) taskId) = Some true
  /\ option_map (fun t' => forallb completion_consistent (t_actions t'))
       (task_in (snd (completeTaskAction2 env taskId actionId data w)) taskId) = Some true.
Proof.
  intros Ht Hinv. split; [| split].
  - destruct (completeTaskAction_exact env w taskId actionId t data Ht) as [_ H2].
    cbv zeta in H2. unfold task_in at 1. rewrite H2.
    destruct (complete_accepted (e_uid env) actionId data (t_actions t)) eqn:Ea.
    + rewrite lookup_insert_eq. cbn. f_equal.
      apply forallb_map_preserve; [| exact Hinv].
      intros a Hin. apply complete_action_consistent. intros Hm.
      unfold complete_accepted in Ea. rewrite forallb_forall in Ea.
      specialize (Ea a Hin). rewrite Hm in Ea. apply andb_prop in Ea as [Hu _]. exact Hu.
    + unfold task_in in Ht. rewrite Ht. cbn. rewrite Hinv. reflexivity.
  - rewrite (proj2 (uncompleteTaskAction_success env w taskId actionId t Ht)). cbn.
    f_equal. apply forallb_map_preserve; [| exact Hinv].
    intros a _. apply uncomplete_action_consistent.
  - destruct (map_res (complete_action2 (e_now env) (e_uid env) actionId data) (t_actions t))
      as [acts | e] eqn:Em.
    + destruct (completeTaskAction2_exact env w taskId actionId t data acts Ht Em) as [_ H2].
      cbv zeta in H2. unfold task_in at 1. rewrite H2.
      destruct (complete2_accepted (e_uid env) actionId data (t_actions t)) eqn:Ea.
      * rewrite lookup_insert_eq. cbn. f_equal.
        exact (map_res_complete_action2_consistent _ _ _ _ _ _ Ea Hinv Em).
      * unfold task_in in Ht. rewrite Ht. cbn. rewrite Hinv. reflexivity.
    + unfold completeTaskAction2, get_doc. unfold_monad. cbn.
      unfold task_in in *. rewrite Ht. cbn. rewrite Em. cbn. rewrite Ht. cbn.
      rewrite Hinv. reflexivity.
Qed.

Lemma C7_ledger_preserves_invariant_witness :
  option_map (fun t' => forallb completion_consistent (t_actions t'))
    (task_in (snd (completeTaskAction env_ok "t1" "a1" None
                     (world_of (sample_task pending [act_open "a1" true])))) "t1")
    = Some true.
Proof.
  apply (C7_ledger_preserves_invariant env_ok _ "t1" "a1"
           (sample_task pending [act_open "a1" true]) None); reflexivity.
Defined.

(** ** C8: announcements around submission and approval *)

Lemma handleSubmitForApproval_exact (env : Env) (w : World) (taskId pn : string)
    (t : TaskSchema) :
  task_in w taskId = Some t ->
  e_projectName env = Some pn -> e_activity_ok env = true -> e_chat_ok env = true ->
  let t' := apply_update (status_update waiting_approval) (e_now env) t in
  let m := with_msg_id (e_msgId env) (submission_message env t') in
  handleSubmitForApproval env taskId w =
    (Ok None, mkWorld (<[taskId := t']> (w_tasks w)) (w_chat w ++ [m])
                      (w_trace w ++ EvWrite taskId
                                 :: update_events env (status_update waiting_approval) t' pn
                                 ++ [EvChat m])).
Proof.
  intros Ht Hpn Hact Hchat; cbv zeta.
  unfold handleSubmitForApproval, catch_ui, bind.
  rewrite (updateTask_success env w taskId pn t _ Ht Hpn Hact).
  unfold addSystemMessageToProjectChat. rewrite Hchat. cbn.
  repeat rewrite <- app_assoc. reflexivity.
Qed.

Lemma handleCompleteTask_exact (env : Env) (w : World) (taskId pn : string)
    (t : TaskSchema) :
  task_in w taskId = Some t ->
  e_projectName env = Some pn -> e_activity_ok env = true -> e_chat_ok env = true ->
  let t' := apply_update (status_update completed) (e_now env) t in
  handleCompleteTask env taskId w =
    (Ok None,
     match List.find (is_submission_of t')
             (filter (fun m => m_projectId m = t_projectId t') (w_chat w)) with
     | Some sub =>
         let m := with_msg_id (e_msgId env) (approval_message env t' sub) in
         mkWorld (<[taskId := t']> (w_tasks w)) (w_chat w ++ [m])
                 (w_trace w ++ EvWrite taskId
                            :: update_events env (status_update completed) t' pn
                            ++ [EvChat m])
     | None =>
         mkWorld (<[taskId := t']> (w_tasks w)) (w_chat w)
                 (w_trace w ++ EvWrite taskId
                            :: update_events env (status_update completed) t' pn
                            ++ [EvLog "Could not find original submission message to update."])
     end).
Proof.
  intros Ht Hpn Hact Hchat; cbv zeta.
  unfold handleCompleteTask, catch_ui, bind.
  rewrite (updateTask_success env w taskId pn t _ Ht Hpn Hact).
  unfold getProjectMessages. cbn.
  destruct (List.find _ _) as [sub |]; cbn.
  - unfold addSystemMessageToProjectChat. rewrite Hchat. cbn.
    repeat rewrite <- app_assoc. reflexivity.
  - unfold emit. cbn. repeat rewrite <- app_assoc. reflexivity.
Qed.

(** C8 (counterexample). Approving a task in [waiting_approval] whose
    project chat holds no submission message: the approval commits
    ([status = completed]) and the handler reports no error, but no chat
    announcement is posted at all (zero, not one). *)
Lemma C8_counterexample :
  let w := world_of (sample_task waiting_approval [act_done "a1" true]) in
  fst (handleCompleteTask env_ok "t1" w) = Ok None /\
  status_in (snd (handleCompleteTask env_ok "t1" w)) "t1" = Some completed /\
  length (w_chat (snd (handleCompleteTask env_ok "t1" w))) = 0.
Proof. vm_compute. auto. Qed.

Lemma update_events_no_chat (env : Env) (u : TaskUpdate) (t : TaskSchema) (pn : string) :
  Forall (fun e => is_chat_event e = false) (update_events env u t pn).
Proof. unfold update_events. destruct (u_status u); repeat constructor. Qed.

(** C8 (amended). With the task stored and the collaborators answering:
    a submission stores [status = waiting_approval] and [updatedAt], then
    posts exactly one [task_submission] announcement, after the write. An
    approval stores [status = completed] and [updatedAt] and reports no
    error; it then posts exactly one [task_approval] announcement carrying
    [originalMessageId] of the first prior [task_submission] message whose
    quoted content contains [/tasks/<id>] when there is one, and otherwise
    posts no announcement and logs a warning, the approval staying
    committed. *)
Theorem C8_announcements (env : Env) (w : World) (taskId pn : string) (t : TaskSchema) :
  task_in w taskId = Some t ->
  e_projectName env = Some pn -> e_activity_ok env = true -> e_chat_ok env = true ->
  (fst (handleSubmitForApproval env taskId w) = Ok None /\
   task_in (snd (handleSubmitForApproval env taskId w)) taskId
     = Some (apply_update (status_update waiting_approval) (e_now env) t) /\
   exists m evs,
     w_chat (snd (handleSubmitForApproval env taskId w)) = (w_chat w ++ [m])%list /\
     m_messageType m = task_submission /\
     w_trace (snd (handleSubmitForApproval env taskId w))
       = (w_trace w ++ EvWrite taskId :: evs ++ [EvChat m])%list /\
     Forall (fun e => is_chat_event e = false) evs)
  /\
  (let t' := apply_update (status_update completed) (e_now env) t in
   fst (handleCompleteTask env taskId w) = Ok None /\
   task_in (snd (handleCompleteTask env taskId w)) taskId = Some t' /\
   match List.find (is_submission_of t')
           (filter (fun m => m_projectId m = t_projectId t') (w_chat w)) with
   | Some sub =>
       exists m evs,
         w_chat (snd (handleCompleteTask env taskId w)) = (w_chat w ++ [m])%list /\
         m_messageType m = task_approval /\ m_originalMessageId m = Some (m_id sub) /\
         w_trace (snd (handleCompleteTask env taskId w))
           = (w_trace w ++ EvWrite taskId :: evs ++ [EvChat m])%list /\
         Forall (fun e => is_chat_event e = false) evs
   | None =>
       w_chat (snd (handleCompleteTask env taskId w)) = w_chat w /\
       exists evs,
         w_trace (snd (handleCompleteTask env taskId w))
           = (w_trace w ++ EvWrite taskId :: evs
                ++ [EvLog "Could not find original submission message to update."])%list /\
         Forall (fun e => is_chat_event e = false) evs
   end).
Proof.
  intros Ht Hpn Hact Hchat. split.
  - rewrite (handleSubmitForApproval_exact env w taskId pn t Ht Hpn Hact Hchat).
    split; [reflexivity |]. split; [unfold task_in; apply lookup_insert_eq |].
    do 2 eexists. split; [reflexivity |]. split; [reflexivity |].
    split; [reflexivity | apply update_events_no_chat].
  - cbv zeta. rewrite (handleCompleteTask_exact env w taskId pn t Ht Hpn Hact Hchat). cbv zeta.
    destruct (List.find _ _) as [sub |].
    + split; [reflexivity |]. split; [unfold task_in; apply lookup_insert_eq |].
      do 2 eexists. split; [reflexivity |]. split; [reflexivity |]. split; [reflexivity |].
      split; [reflexivity | apply update_events_no_chat].
    + split; [reflexivity |]. split; [unfold task_in; apply lookup_insert_eq |].
      split; [reflexivity |]. eexists. split; [reflexivity | apply update_events_no_chat].
Qed.

Lemma C8_announcements_witness :
  fst (handleCompleteTask env_ok "t1"
         (world_of (sample_task waiting_approval [act_done "a1" true]))) = Ok None.
Proof.
  apply (C8_announcements env_ok (world_of (sample_task waiting_approval [act_done "a1" true]))
           "t1" "Projeto" (sample_task waiting_approval [act_done "a1" true]));
    reflexivity.
Defined.

(** ** C9: side-effect dispatch *)

Ltac no_writes := repeat constructor.

(** [createTask] writes first; every later effect is a dispatcher call or a log. *)
Lemma createTask_write_first (env : Env) (s : Settings) (ti : TaskInput) (w : World) :
  exists rest,
    w_trace (snd (createTask env s ti w)) = (w_trace w ++ EvWrite (e_newId env) :: rest)%list /\
    Forall (fun e => is_write_event e = false) rest.
Proof.
  unfold createTask, set_doc, createNotification, getProjectById, logActivity.
  destruct (String.eqb (ti_assignedTo ti) ""), (e_notify_ok env), (e_projectName env),
    (e_activity_ok env); unfold_monad; cbn;
    eexists; (split; [repeat rewrite <- app_assoc; reflexivity | no_writes]).
Qed.

(** [updateTask] on a stored task writes first. *)
Lemma updateTask_write_first (env : Env) (w : World) (taskId : string) (t : TaskSchema)
    (u : TaskUpdate) :
  task_in w taskId = Some t ->
  exists rest,
    w_trace (snd (updateTask env taskId u w)) = (w_trace w ++ EvWrite taskId :: rest)%list /\
    Forall (fun e => is_write_event e = false) rest.
Proof.
  unfold task_in; intros Ht.
  unfold updateTask, update_doc, getTaskById, get_doc, getProjectById, logActivity.
  destruct (e_projectName env), (e_activity_ok env), (u_status u);
    unfold_monad; cbn; rewrite Ht; cbn; rewrite ?lookup_insert_eq; cbn;
    eexists; (split; [repeat rewrite <- app_assoc; reflexivity | no_writes]).
Qed.

(** C9 (counterexample). [createTask] for an assigned task while the
    notification service throws: the task is stored, but the error reaches
    the caller and the activity entry is never recorded. *)
Lemma C9_counterexample :
  let ti := mkInput "T" "" "p1" "u1" medium (double_of_Z 1) 0 None in
  let r := createTask env_notify_fails (mkSettings (double_of_Z 10) (double_of_Z 1)) ti (mkWorld ∅ [] []) in
  fst r = Fail NotificationFailed /\
  option_map t_id (task_in (snd r) "t9") = Some "t9" /\
  existsb is_activity_event (w_trace (snd r)) = false.
Proof. vm_compute. auto. Qed.

Lemma createTask_notify_failure (env : Env) (s : Settings) (ti : TaskInput) (w : World) :
  e_notify_ok env = false -> String.eqb (ti_assignedTo ti) "" = false ->
  let newTask := new_task env s ti (match ti_actions ti with Some l => l | None => [] end) in
  createTask env s ti w =
    (Fail NotificationFailed,
     mkWorld (<[e_newId env := newTask]> (w_tasks w)) (w_chat w)
             (w_trace w ++ [EvWrite (e_newId env); EvLog "Erro ao criar tarefa:"])).
Proof.
  intros Hn Ha; cbv zeta.
  unfold createTask, set_doc, createNotification. rewrite Ha, Hn.
  unfold_monad; cbn. rewrite <- app_assoc. reflexivity.
Qed.

Lemma updateTask_activity_failure (env : Env) (w : World) (taskId pn : string)
    (t : TaskSchema) (u : TaskUpdate) :
  task_in w taskId = Some t -> e_projectName env = Some pn -> e_activity_ok env = false ->
  let t' := apply_update u (e_now env) t in
  updateTask env taskId u w =
    (Fail ActivityFailed,
     mkWorld (<[taskId := t']> (w_tasks w)) (w_chat w)
             (w_trace w ++ [EvWrite taskId; EvLog "Erro ao atualizar tarefa:"])).
Proof.
  unfold task_in; intros Ht Hpn Hact; cbv zeta.
  unfold updateTask, update_doc, getTaskById, get_doc, getProjectById, logActivity.
  rewrite Hpn, Hact. unfold_monad. cbn. rewrite Ht. cbn.
  rewrite lookup_insert_eq. cbn. rewrite <- app_assoc. reflexivity.
Qed.

(** C9 (amended). The dispatchers run only after the write: every effect
    [createTask] and [updateTask] produce after their single document write
    is a dispatcher call or a log, and the written document stays stored
    whatever the dispatchers do (no rollback). But dispatcher failures are
    not isolated: the first one that throws aborts the remaining ones and,
    after a console log, is rethrown to the caller. A throwing notification
    in [createTask] surfaces as the call's error and the activity entry is
    never recorded; a throwing activity log in [updateTask] surfaces as its
    error, and in the submission handler it also suppresses the chat
    announcement while the new status stays stored. *)
Theorem C9_dispatch_after_commit (env : Env) (s : Settings) (ti : TaskInput) (w : World)
    (taskId pn : string) (t : TaskSchema) (u : TaskUpdate) :
  task_in w taskId = Some t -> e_projectName env = Some pn ->
  ((exists rest,
      w_trace (snd (createTask env s ti w)) = (w_trace w ++ EvWrite (e_newId env) :: rest)%list /\
      Forall (fun e => is_write_event e = false) rest) /\
   task_in (snd (createTask env s ti w)) (e_newId env)
     = Some (new_task env s ti (match ti_actions ti with Some l => l | None => [] end)))
  /\ ((exists rest,
         w_trace (snd (updateTask env taskId u w)) = (w_trace w ++ EvWrite taskId :: rest)%list /\
         Forall (fun e => is_write_event e = false) rest) /\
      task_in (snd (updateTask env taskId u w)) taskId = Some (apply_update u (e_now env) t))
  /\ (e_notify_ok env = false -> String.eqb (ti_assignedTo ti) "" = false ->
      fst (createTask env s ti w) = Fail NotificationFailed /\
      Forall (fun e => is_activity_event e = false)
        (drop (length (w_trace w)) (w_trace (snd (createTask env s ti w)))))
  /\ (e_activity_ok env = false ->
      fst (updateTask env taskId u w) = Fail ActivityFailed /\
      fst (handleSubmitForApproval env taskId w) = Ok (Some "Failed to submit the task for approval.") /\
      w_chat (snd (handleSubmitForApproval env taskId w)) = w_chat w /\
      status_in (snd (handleSubmitForApproval env taskId w)) taskId = Some waiting_approval).
Proof.
  intros Ht Hpn. split; [| split; [| split]].
  - split; [apply createTask_write_first | apply createTask_stores].
  - split; [apply (updateTask_write_first env w taskId t u Ht) |
            apply (updateTask_commits env w taskId t u Ht)].
  - intros Hn Ha. rewrite (createTask_notify_failure env s ti w Hn Ha). cbn.
    split; [reflexivity |]. rewrite drop_app_length. no_writes.
  - intros Hact. rewrite (updateTask_activity_failure env w taskId pn t u Ht Hpn Hact).
    split; [reflexivity |].
    unfold handleSubmitForApproval, catch_ui, bind.
    rewrite (updateTask_activity_failure env w taskId pn t _ Ht Hpn Hact). cbn.
    split; [reflexivity |]. split; [reflexivity |].
    unfold status_in, task_in; cbn. rewrite lookup_insert_eq. reflexivity.
Qed.

Lemma C9_dispatch_after_commit_witness :
  fst (createTask env_notify_fails (mkSettings (double_of_Z 10) (double_of_Z 1)) (mkInput "T" "" "p1" "u1" medium (double_of_Z 1) 0 None)
         (world_of (sample_task pending []))) = Fail NotificationFailed.
Proof.
  apply (C9_dispatch_after_commit env_notify_fails (mkSettings (double_of_Z 10) (double_of_Z 1))
           (mkInput "T" "" "p1" "u1" medium (double_of_Z 1) 0 None) (world_of (sample_task pending []))
           "t1" "Projeto" (sample_task pending []) empty_update);
    reflexivity.
Defined.

(** ** C10: [fetchTasks] totals *)

Lemma js_ceil_div_le_1 (n l : nat) :
  (0 < l)%nat -> (n <= l)%nat -> (js_ceil_div n l <= 1)%Z.
Proof.
  intros Hl Hn. unfold js_ceil_div.
  rewrite <- (Qceiling_Z 1). apply Qceiling_resp_le.
  apply Qle_shift_div_r.
  - unfold Qlt; cbn. lia.
  - unfold Qle, Qmult; cbn. lia.
Qed.

Lemma run_query_length (o : FetchOptions) (store : gmap string TaskSchema) (l : nat) :
  limit_of o = Some l -> (length (run_query o store) <= l)%nat.
Proof.
  intros Hl. unfold run_query. rewrite Hl, length_take. lia.
Qed.

(** C10. [fetchTasks] returns [totalTasks = data.length], where [data] is
    the page the query returned (filters, order, cursor and limit applied),
    not the number of stored tasks matching the filters; so with a limit
    [L] supplied the page has at most [L] tasks and
    [totalPages = ceil(totalTasks / L) <= 1] (a limit of 0 is ignored and
    gives [totalPages = 1]), however many tasks match. *)
Theorem C10_fetchTasks_totals (o : FetchOptions) (w : World) :
  exists res,
    fst (fetchTasks o w) = Ok res /\
    data res = run_query o (w_tasks w) /\
    totalTasks res = length (data res) /\
    (forall L : nat, fo_limit o = Some L ->
       (totalPages res <= 1)%Z /\ (0 < L -> length (data res) <= L)%nat).
Proof.
  unfold fetchTasks, get_world, bind, ret.
  eexists. split; [reflexivity |]. cbn [data totalTasks totalPages].
  split; [reflexivity |]. split; [reflexivity |].
  intros L HL.
  destruct L as [| L'].
  - assert (Hlim : limit_of o = None) by (unfold limit_of; rewrite HL; reflexivity).
    rewrite Hlim. split; [lia | intros Hc; lia].
  - assert (Hlim : limit_of o = Some (S L')) by (unfold limit_of; rewrite HL; reflexivity).
    pose proof (run_query_length o (w_tasks w) _ Hlim) as Hlen.
    rewrite Hlim. split; [apply js_ceil_div_le_1; lia | intros _; exact Hlen].
Qed.

Lemma C10_fetchTasks_totals_witness :
  let o := mkFetch (Some "p1") None None None (Some 1%nat) None in
  let w := mkWorld {["t1" := sample_task pending []; "t2" := sample_task pending []]} [] [] in
  match fst (fetchTasks o w) with
  | Ok res => (totalPages res <= 1)%Z /\ totalTasks res = 1%nat
  | Fail _ => False
  end.
Proof.
  cbv zeta.
  destruct (C10_fetchTasks_totals (mkFetch (Some "p1") None None None (Some 1%nat) None)
              (mkWorld {["t1" := sample_task pending []; "t2" := sample_task pending []]} [] []))
    as [res [Hr [_ [_ Hp]]]].
  rewrite Hr. split.
  - exact (proj1 (Hp 1%nat eq_refl)).
  - vm_compute in Hr. injection Hr as <-. reflexivity.
Defined.

(** * Further properties of the service *)

(** ** Operations on a missing task *)

(** Reading, updating, completing or uncompleting a task that is not
    stored fails with [TaskNotFound]: nothing is written, no collaborator
    is called, only the service's console error is added. *)
Theorem missing_task_fails (env : Env) (w : World) (taskId actionId : string)
    (u : TaskUpdate) (data : option Obj) :
  task_in w taskId = None ->
  getTaskById taskId w
    = (Fail TaskNotFound, mkWorld (w_tasks w) (w_chat w)
                                  (w_trace w ++ [EvLog "Erro ao buscar tarefa por ID:"]))
  /\ updateTask env taskId u w
    = (Fail TaskNotFound, mkWorld (w_tasks w) (w_chat w)
                                  (w_trace w ++ [EvLog "Erro ao atualizar tarefa:"]))
  /\ completeTaskAction env taskId actionId data w
    = (Fail TaskNotFound, mkWorld (w_tasks w) (w_chat w)
                                  (w_trace w ++ [EvLog "Erro ao completar ação de tarefa:"]))
  /\ completeTaskAction2 env taskId actionId data w
    = (Fail TaskNotFound, mkWorld (w_tasks w) (w_chat w)
                                  (w_trace w ++ [EvLog "Error completing task action:"]))
  /\ uncompleteTaskAction env taskId actionId w
    = (Fail TaskNotFound, mkWorld (w_tasks w) (w_chat w)
                                  (w_trace w ++ [EvLog "Erro ao descompletar ação de tarefa:"])).
Proof.
  unfold task_in; intros Ht.
  unfold getTaskById, updateTask, completeTaskAction, completeTaskAction2,
    uncompleteTaskAction, get_doc, update_doc.
  unfold_monad. cbn. rewrite Ht. auto.
Qed.

Lemma missing_task_fails_witness :
  fst (completeTaskAction env_ok "t2" "a1" None
         (world_of (sample_task pending [act_open "a1" true]))) = Fail TaskNotFound.
Proof.
  rewrite (proj1 (proj2 (proj2 (missing_task_fails env_ok
             (world_of (sample_task pending [act_open "a1" true])) "t2" "a1"
             empty_update None eq_refl)))).
  reflexivity.
Defined.

(** ** Each operation touches only its own document *)

Theorem writes_touch_only_their_document (env : Env) (w : World) (taskId actionId k : string)
    (u : TaskUpdate) (data : option Obj) :
  k <> taskId ->
  task_in (snd (updateTask env taskId u w)) k = task_in w k /\
  task_in (snd (completeTaskAction env taskId actionId data w)) k = task_in w k /\
  task_in (snd (completeTaskAction2 env taskId actionId data w)) k = task_in w k /\
  task_in (snd (uncompleteTaskAction env taskId actionId w)) k = task_in w k /\
  task_in (snd (deleteTask taskId w)) k = task_in w k.
Proof.
  intros Hk. unfold task_in.
  destruct (w_tasks w !! taskId) as [t |] eqn:Ht.
  2: { unfold updateTask, completeTaskAction, completeTaskAction2, uncompleteTaskAction,
         deleteTask, delete_doc, get_doc, update_doc.
       unfold_monad. cbn. rewrite Ht. cbn.
       rewrite lookup_delete_ne by congruence. auto. }
  split; [| split; [| split; [| split]]].
  - unfold updateTask, update_doc, getTaskById, get_doc, getProjectById, logActivity.
    destruct (e_projectName env), (e_activity_ok env), (u_status u);
      unfold_monad; cbn; rewrite Ht; cbn; rewrite ?lookup_insert_eq; cbn;
      apply lookup_insert_ne; congruence.
  - unfold completeTaskAction, get_doc, update_doc. unfold_monad. cbn.
    rewrite Ht. cbn. destruct (complete_accepted _ _ _ _); cbn; [| reflexivity].
    rewrite Ht. cbn. apply lookup_insert_ne; congruence.
  - unfold completeTaskAction2, get_doc, update_doc. unfold_monad. cbn. rewrite Ht. cbn.
    destruct (map_res _ _); cbn; [| reflexivity].
    destruct (complete2_accepted _ _ _ _); cbn; [| reflexivity].
    rewrite Ht; cbn; apply lookup_insert_ne; congruence.
  - unfold uncompleteTaskAction, get_doc, update_doc. unfold_monad. cbn.
    rewrite Ht. cbn. rewrite Ht. cbn. apply lookup_insert_ne; congruence.
  - unfold deleteTask, delete_doc. unfold_monad. cbn. apply lookup_delete_ne; congruence.
Qed.

Lemma writes_touch_only_their_document_witness :
  task_in (snd (deleteTask "t1" (mkWorld {["t1" := sample_task pending [];
                                          "t2" := sample_task completed []]} [] []))) "t2"
    = Some (sample_task completed []).
Proof.
  rewrite (proj2 (proj2 (proj2 (proj2 (writes_touch_only_their_document env_ok
             (mkWorld {["t1" := sample_task pending []; "t2" := sample_task completed []]} [] [])
             "t1" "a1" "t2" empty_update None ltac:(discriminate)))))).
  reflexivity.
Defined.

(** ** The ledger keeps the shape of the action list *)

Lemma map_res_complete_action2_ids (now : Z) (uid : option string) (actionId : string)
    (data : option Obj) (l acts : list TaskAction) :
  map_res (complete_action2 now uid actionId data) l = Ok acts ->
  map a_id acts = map a_id l.
Proof.
  revert acts. induction l as [| a l IH]; cbn; intros acts Hm.
  - injection Hm as <-. reflexivity.
  - destruct (complete_action2 now uid actionId data a) as [a' |] eqn:Ea; [| discriminate].
    destruct (map_res (complete_action2 now uid actionId data) l) as [acts' |];
      [| discriminate].
    injection Hm as <-. cbn. rewrite (IH acts' eq_refl). f_equal.
    revert Ea. unfold complete_action2.
    destruct (String.eqb (a_id a) actionId); [destruct data; [| discriminate] |];
      intros [= <-]; reflexivity.
Qed.

(** The ledger operations neither reorder, drop nor duplicate actions: the
    stored action identifiers after [completeTaskAction] (either revision,
    when it succeeds) or [uncompleteTaskAction] are those before, in the same
    order. *)
Theorem ledger_keeps_action_ids (env : Env) (w : World) (taskId actionId : string)
    (t : TaskSchema) (data : option Obj) :
  task_in w taskId = Some t ->
  option_map (fun t' => map a_id (t_actions t'))
    (task_in (snd (completeTaskAction env taskId actionId data w)) taskId)
    = Some (map a_id (t_actions t))
  /\ option_map (fun t' => map a_id (t_actions t'))
       (task_in (snd (uncompleteTaskAction env taskId actionId w)) taskId)
       = Some (map a_id (t_actions t))
  /\ (fst (completeTaskAction2 env taskId actionId data w) = Ok tt ->
      option_map (fun t' => map a_id (t_actions t'))
        (task_in (snd (completeTaskAction2 env taskId actionId data w)) taskId)
        = Some (map a_id (t_actions t))).
Proof.
  intros Ht. split; [| split].
  - destruct (completeTaskAction_exact env w taskId actionId t data Ht) as [_ H2].
    cbv zeta in H2. unfold task_in at 1. rewrite H2.
    destruct (complete_accepted (e_uid env) actionId data (t_actions t));
      [| unfold task_in in Ht; rewrite Ht; reflexivity].
    rewrite lookup_insert_eq. cbn.
    rewrite map_map. f_equal. apply map_ext. intros a.
    unfold complete_action. destruct (String.eqb (a_id a) actionId); reflexivity.
  - rewrite (proj2 (uncompleteTaskAction_success env w taskId actionId t Ht)). cbn.
    rewrite map_map. f_equal. apply map_ext. intros a.
    unfold uncomplete_action. destruct (String.eqb (a_id a) actionId); reflexivity.
  - destruct (map_res (complete_action2 (e_now env) (e_uid env) actionId data) (t_actions t))
      as [acts | e] eqn:Em.
    + intros _.
      destruct (completeTaskAction2_exact env w taskId actionId t data acts Ht Em) as [_ H2].
      cbv zeta in H2. unfold task_in at 1. rewrite H2.
      destruct (complete2_accepted (e_uid env) actionId data (t_actions t));
        [| unfold task_in in Ht; rewrite Ht; reflexivity].
      rewrite lookup_insert_eq.
      cbn. f_equal. exact (map_res_complete_action2_ids _ _ _ _ _ _ Em).
    + unfold completeTaskAction2, get_doc. unfold_monad. cbn.
      unfold task_in in Ht. rewrite Ht. cbn. rewrite Em. discriminate.
Qed.

Lemma ledger_keeps_action_ids_witness :
  option_map (fun t' => map a_id (t_actions t'))
    (task_in (snd (uncompleteTaskAction env_ok "t1" "a2"
                     (world_of (sample_task pending [act_open "a1" true; act_done "a2" false]))))
             "t1")
    = Some ["a1"; "a2"].
Proof.
  apply (ledger_keeps_action_ids env_ok _ "t1" "a2"
           (sample_task pending [act_open "a1" true; act_done "a2" false]) None).
  reflexivity.
Defined.

(** ** Uncompleting is idempotent, completing is not *)

(** Uncompleting the same action twice stores the same actions as
    uncompleting it once. *)
Theorem uncomplete_idempotent (env1 env2 : Env) (w : World) (taskId actionId : string)
    (t : TaskSchema) :
  task_in w taskId = Some t ->
  option_map t_actions
    (task_in (snd (uncompleteTaskAction env2 taskId actionId
                     (snd (uncompleteTaskAction env1 taskId actionId w)))) taskId)
  = option_map t_actions (task_in (snd (uncompleteTaskAction env1 taskId actionId w)) taskId).
Proof.
  intros Ht.
  destruct (uncompleteTaskAction_success env1 w taskId actionId t Ht) as [_ H1].
  rewrite (proj2 (uncompleteTaskAction_success env2 _ taskId actionId _ H1)), H1. cbn.
  f_equal. rewrite map_map. apply map_ext. intros a.
  unfold uncomplete_action. destruct (String.eqb (a_id a) actionId) eqn:E; cbn;
    rewrite E; reflexivity.
Qed.

Lemma uncomplete_idempotent_witness :
  option_map t_actions
    (task_in (snd (uncompleteTaskAction env_ok "t1" "a1"
                     (snd (uncompleteTaskAction env_ok "t1" "a1"
                             (world_of (sample_task pending [act_done "a1" true])))))) "t1")
  = Some [act_open "a1" true].
Proof.
  rewrite (uncomplete_idempotent env_ok env_ok (world_of (sample_task pending [act_done "a1" true]))
             "t1" "a1" (sample_task pending [act_done "a1" true]) eq_refl).
  reflexivity.
Defined.

Lemma complete_action_matched (now : Z) (uid : option string) (actionId : string)
    (data : option Obj) (a : TaskAction) :
  a_id (complete_action now uid actionId data a) = actionId ->
  a_completed (complete_action now uid actionId data a) = true /\
  a_completedAt (complete_action now uid actionId data a) = Some now /\
  a_completedBy (complete_action now uid actionId data a) = uid.
Proof.
  unfold complete_action. destruct (String.eqb (a_id a) actionId) eqn:E; cbn;
    intros H; [auto |].
  apply String.eqb_neq in E. contradiction.
Qed.

Lemma complete_accepted_defined (uid : option string) (actionId : string)
    (data : option Obj) (l : list TaskAction) :
  is_set uid = true -> patch_defined data = true ->
  complete_accepted uid actionId data l = true.
Proof.
  intros Hu Hd. unfold complete_accepted. apply forallb_forall. intros a _.
  rewrite Hu, Hd. destruct (String.eqb (a_id a) actionId); reflexivity.
Qed.

(** [completeTaskAction] leaves a stored task stored. *)
Lemma completeTaskAction_keeps_task (env : Env) (w : World) (taskId actionId : string)
    (t : TaskSchema) (data : option Obj) :
  task_in w taskId = Some t ->
  exists t1, task_in (snd (completeTaskAction env taskId actionId data w)) taskId = Some t1.
Proof.
  intros Ht. destruct (completeTaskAction_exact env w taskId actionId t data Ht) as [_ H2].
  cbv zeta in H2. unfold task_in in *. rewrite H2.
  destruct (complete_accepted _ _ _ _); [rewrite lookup_insert_eq |]; eauto.
Qed.

(** Completing an action again overwrites it: when the second call is
    made by a signed-in user with a patch free of [undefined], after two
    completions every action carrying the identifier has the second call's
    [completedAt] and [completedBy], and is completed. *)
Theorem recomplete_overwrites (env1 env2 : Env) (w : World) (taskId actionId : string)
    (t : TaskSchema) (data1 data2 : option Obj) :
  task_in w taskId = Some t ->
  is_set (e_uid env2) = true -> patch_defined data2 = true ->
  exists t2,
    task_in (snd (completeTaskAction env2 taskId actionId data2
                    (snd (completeTaskAction env1 taskId actionId data1 w)))) taskId = Some t2 /\
    Forall (fun a => a_id a = actionId ->
                     a_completed a = true /\ a_completedAt a = Some (e_now env2) /\
                     a_completedBy a = e_uid env2) (t_actions t2).
Proof.
  intros Ht Hu Hd.
  destruct (completeTaskAction_keeps_task env1 w taskId actionId t data1 Ht) as [t1 H1].
  rewrite (proj2 (completeTaskAction_success env2 _ taskId actionId _ data2 H1
                    (complete_accepted_defined _ _ _ _ Hu Hd))).
  eexists. split; [reflexivity |]. cbn.
  apply Forall_forall. intros a Hin Hid.
  apply list_elem_of_In, in_map_iff in Hin as [b [<- _]].
  exact (complete_action_matched _ _ _ _ _ Hid).
Qed.

Lemma recomplete_overwrites_witness :
  exists t2,
    task_in (snd (completeTaskAction env_notify_fails "t1" "a1" None
                    (snd (completeTaskAction env_ok "t1" "a1" None
                            (world_of (sample_task pending [act_open "a1" true])))))) "t1"
      = Some t2 /\
    Forall (fun a => a_id a = "a1" ->
                     a_completed a = true /\ a_completedAt a = Some 100%Z /\
                     a_completedBy a = Some "u1") (t_actions t2).
Proof.
  exact (recomplete_overwrites env_ok env_notify_fails
           (world_of (sample_task pending [act_open "a1" true])) "t1" "a1"
           (sample_task pending [act_open "a1" true]) None None eq_refl eq_refl eq_refl).
Defined.

(** ** [deleteTask] *)

(** Deleting always resolves, also for a missing task, and afterwards the
    task can no longer be read: [getTaskById] fails with [TaskNotFound]. *)
Theorem deleteTask_removes (w : World) (taskId : string) :
  fst (deleteTask taskId w) = Ok tt /\
  task_in (snd (deleteTask taskId w)) taskId = None /\
  fst (getTaskById taskId (snd (deleteTask taskId w))) = Fail TaskNotFound.
Proof.
  unfold deleteTask, delete_doc, getTaskById, get_doc, task_in. unfold_monad. cbn.
  rewrite lookup_delete_eq. auto.
Qed.

(** ** Creating a task from a template *)


Lemma string_length_app (a b : string) :
  String.length (a ++ b) = (String.length a + String.length b)%nat.
Proof. induction a as [| x a IH]; [reflexivity | exact (f_equal S IH)]. Qed.
Lemma string_app_cancel_r (a b c : string) : (a ++ c)%string = (b ++ c)%string -> a = b.
Proof.
  revert b. induction a as [| x a IH]; intros [| y b]; intros H.
  - reflexivity.
  - apply (f_equal String.length) in H. change (String.length c = S (String.length (b ++ c))) in H.
    rewrite string_length_app in H. lia.
  - apply (f_equal String.length) in H. change (S (String.length (a ++ c)) = String.length c) in H.
    rewrite string_length_app in H. lia.
  - injection H as -> H. f_equal. exact (IH b H).
Qed.

Lemma template_id_inj (now : Z) (i j : nat) :
  ("action_" ++ pretty i ++ "_" ++ pretty now)%string
  = ("action_" ++ pretty j ++ "_" ++ pretty now)%string -> i = j.
Proof.
  cbn. intros H. repeat (injection H as H).
  change ((pretty i ++ ("_" ++ pretty now)) = (pretty j ++ ("_" ++ pretty now)))%string in H.
  apply string_app_cancel_r in H. apply (inj pretty) in H. exact H.
Qed.

Lemma map_imap_ids (f : nat -> TemplateElement -> TaskAction) (g : nat -> string)
    (l : list TemplateElement) :
  (forall i x, a_id (f i x) = g i) -> map a_id (imap f l) = map g (seq 0 (length l)).
Proof.
  revert f g. induction l as [| x l IH]; intros f g H; [reflexivity |].
  rewrite imap_cons. cbn. rewrite H. f_equal.
  rewrite (IH (f ∘ S) (g ∘ S)) by (intros i y; apply H).
  rewrite <- seq_shift, map_map. reflexivity.
Qed.

Lemma map_imap_const {A B : Type} (f : nat -> TemplateElement -> A) (h : A -> B)
    (k : TemplateElement -> B) (l : list TemplateElement) :
  (forall i x, h (f i x) = k x) -> map h (imap f l) = map k l.
Proof.
  revert f. induction l as [| x l IH]; intros f H; [reflexivity |].
  rewrite imap_cons. cbn. rewrite H. f_equal. apply (IH (f ∘ S)). intros; apply H.
Qed.

Lemma Forall_imap {A : Type} (P : A -> Prop) (f : nat -> TemplateElement -> A)
    (l : list TemplateElement) :
  (forall i x, P (f i x)) -> Forall P (imap f l).
Proof.
  revert f. induction l as [| x l IH]; intros f H; [constructor |].
  rewrite imap_cons. constructor; [apply H | apply (IH (f ∘ S)); intros; apply H].
Qed.

Lemma map_inj_NoDup {A B : Type} (g : A -> B) (l : list A) :
  (forall x y, g x = g y -> x = y) -> NoDup l -> NoDup (map g l).
Proof.
  intros Hg Hl. induction Hl as [| x l Hx Hl IH]; cbn; constructor; [| exact IH].
  intros Hin. apply list_elem_of_In, in_map_iff in Hin as (y & Hy & Hin).
  apply Hg in Hy. subst y. apply Hx, list_elem_of_In, Hin.
Qed.

Lemma createActionsFromTemplate_open (now : Z) (tpl : ActionTemplate) :
  Forall (fun a => a_completed a = false /\ a_completedAt a = None /\
                   a_completedBy a = None /\ completion_consistent a = true)
         (createActionsFromTemplate now tpl).
Proof. apply Forall_imap. intros i e. cbn. auto. Qed.

(** The actions built from a template ([Date.now()] read within one
    millisecond, as modelled): one per element, in order; every
    one open ([completed = false], no [completedAt] or [completedBy], so
    the completion invariant holds), [required] only when the element says
    so; and their identifiers are pairwise distinct. *)
Theorem createActionsFromTemplate_spec (now : Z) (tpl : ActionTemplate) :
  let acts := createActionsFromTemplate now tpl in
  length acts = length (tpl_elements tpl) /\
  map a_title acts = map el_label (tpl_elements tpl) /\
  map a_required acts
    = map (fun e => match el_required e with Some b => b | None => false end)
          (tpl_elements tpl) /\
  Forall (fun a => a_completed a = false /\ a_completedAt a = None /\
                   a_completedBy a = None /\ completion_consistent a = true) acts /\
  NoDup (map a_id acts).
Proof.
  cbv zeta. unfold createActionsFromTemplate.
  split; [| split; [| split; [| split]]].
  - apply length_imap.
  - apply map_imap_const. reflexivity.
  - apply map_imap_const. reflexivity.
  - apply createActionsFromTemplate_open.
  - rewrite (map_imap_ids _ (fun i => "action_" ++ pretty i ++ "_" ++ pretty now)%string)
      by reflexivity.
    apply map_inj_NoDup; [intros i j; apply template_id_inj | apply NoDup_seq].
Qed.



(** ** The progress bar *)


Lemma existsb_eqb_In (x : string) (l : list string) :
  existsb (String.eqb x) l = true <-> In x l.
Proof.
  rewrite existsb_exists. split.
  - intros (y & Hy & E). apply String.eqb_eq in E. subst. exact Hy.
  - intros H. exists x. split; [exact H | apply String.eqb_refl].
Qed.

Lemma dedup_from_In (seen xs : list string) (x : string) :
  In x (dedup_from seen xs) <-> In x xs /\ ~ In x seen.
Proof.
  revert seen. induction xs as [| y xs IH]; intros seen; cbn; [tauto |].
  destruct (existsb (String.eqb y) seen) eqn:E.
  - apply existsb_eqb_In in E. rewrite IH.
    destruct (String.string_dec y x) as [-> | Hne]; [tauto |]. intuition congruence.
  - assert (~ In y seen) as Hy by (rewrite <- existsb_eqb_In, E; discriminate).
    cbn. rewrite IH. cbn.
    destruct (String.string_dec y x) as [-> | Hne]; intuition congruence.
Qed.

Lemma dedup_from_NoDup (seen xs : list string) : NoDup (dedup_from seen xs).
Proof.
  revert seen. induction xs as [| y xs IH]; intros seen; cbn; [constructor |].
  destruct (existsb (String.eqb y) seen); [apply IH |].
  constructor; [| apply IH].
  rewrite list_elem_of_In, dedup_from_In. cbn. tauto.
Qed.

Lemma filter_NoDup {A : Type} (f : A -> bool) (l : list A) :
  NoDup l -> NoDup (List.filter f l).
Proof.
  induction 1 as [| x l Hx Hl IH]; cbn; [constructor |].
  destruct (f x); [| exact IH]. constructor; [| exact IH].
  rewrite list_elem_of_In, filter_In. rewrite list_elem_of_In in Hx. tauto.
Qed.

(** ** The users [loadTask] fetches *)

(** The ids [loadTask] passes to [fetchUsers] are pairwise distinct and are
    exactly the non-empty values among the assignee, the creator and the
    [completedBy] of the task's actions. *)
Theorem user_ids_to_load_spec (t : TaskSchema) :
  NoDup (user_ids_to_load t) /\
  (forall u, In u (user_ids_to_load t) <->
     u <> "" /\ (u = t_assignedTo t \/ u = t_createdBy t \/
                 exists a, In a (t_actions t) /\ a_completedBy a = Some u)).
Proof.
  unfold user_ids_to_load. split.
  - apply filter_NoDup, dedup_from_NoDup.
  - intros u. rewrite filter_In, dedup_from_In, negb_true_iff, String.eqb_neq.
    cbn [app In]. rewrite in_flat_map. split.
    + intros [[[H | [H | (a & Ha & Hu)]] _] Hne]; split; auto.
      right; right. exists a. split; [exact Ha |].
      destruct (a_completedBy a) as [v |]; [| contradiction].
      destruct (String.eqb v "") eqn:Ev; cbn in Hu; [contradiction |].
      destruct Hu as [-> | []]. reflexivity.
    + intros [Hne [H | [H | (a & Ha & Hu)]]]; (split; [split; [| tauto] | exact Hne]); auto.
      right; right. exists a. split; [exact Ha |]. rewrite Hu.
      apply String.eqb_neq in Hne. rewrite Hne. left; reflexivity.
Qed.

#[global] Instance created_desc_total : Total created_desc.
Proof. intros a b. unfold created_desc. lia. Qed.

#[global] Instance created_desc_trans : Transitive created_desc.
Proof. intros a b c. unfold created_desc. lia. Qed.

Lemma In_take {A : Type} (n : nat) (l : list A) (x : A) : In x (take n l) -> In x l.
Proof.
  revert n. induction l as [| y l IH]; intros [| n]; cbn; try tauto.
  intros [-> | H]; [left; reflexivity | right; exact (IH n H)].
Qed.

Lemma StronglySorted_filter {A : Type} (R : A -> A -> Prop) (f : A -> bool) (l : list A) :
  StronglySorted R l -> StronglySorted R (List.filter f l).
Proof.
  induction 1 as [| x l Hl IH Hx]; cbn; [constructor |].
  destruct (f x); [| exact IH]. constructor; [exact IH |].
  rewrite Forall_forall in Hx |- *. intros y Hy.
  apply list_elem_of_In, filter_In in Hy. apply Hx, list_elem_of_In, Hy.
Qed.

Lemma StronglySorted_take {A : Type} (R : A -> A -> Prop) (n : nat) (l : list A) :
  StronglySorted R l -> StronglySorted R (take n l).
Proof.
  intros H. revert n. induction H as [| x l Hl IH Hx]; intros [| n]; cbn; try constructor.
  - apply IH.
  - rewrite Forall_forall in Hx |- *. intros y Hy.
    apply list_elem_of_In, In_take, list_elem_of_In in Hy. apply Hx, Hy.
Qed.

Lemma run_query_sorted (o : FetchOptions) (store : gmap string TaskSchema) :
  StronglySorted created_desc (run_query o store).
Proof.
  unfold run_query.
  pose proof (StronglySorted_merge_sort created_desc
                (List.filter (matches_filters o) (map snd (map_to_list store)))) as H.
  assert (StronglySorted created_desc
            (match cursor_of o with
             | Some c => List.filter (fun t => Z.ltb (t_createdAt t) c)
                           (merge_sort created_desc
                              (List.filter (matches_filters o) (map snd (map_to_list store))))
             | None => merge_sort created_desc
                         (List.filter (matches_filters o) (map snd (map_to_list store)))
             end)) as H2 by (destruct (cursor_of o); [apply StronglySorted_filter |]; exact H).
  destruct (limit_of o); [apply StronglySorted_take |]; exact H2.
Qed.

Lemma run_query_In (o : FetchOptions) (store : gmap string TaskSchema) (t : TaskSchema) :
  In t (run_query o store) ->
  (exists k, store !! k = Some t) /\ matches_filters o t = true /\ before_cursor o t = true.
Proof.
  unfold run_query, before_cursor. intros H.
  assert (In t (match cursor_of o with
             | Some c => List.filter (fun t => Z.ltb (t_createdAt t) c)
                           (merge_sort created_desc
                              (List.filter (matches_filters o) (map snd (map_to_list store))))
             | None => merge_sort created_desc
                         (List.filter (matches_filters o) (map snd (map_to_list store)))
             end)) as H2 by (destruct (limit_of o); [eapply In_take; exact H | exact H]).
  clear H.
  assert (forall l, In t (merge_sort created_desc l) -> In t l) as Hms.
  { intros l Hl. eapply Permutation_in; [apply (merge_sort_Permutation created_desc) | exact Hl]. }
  assert (In t (List.filter (matches_filters o) (map snd (map_to_list store))) /\
          match cursor_of o with Some c => Z.ltb (t_createdAt t) c | None => true end = true)
    as [Hf Hc].
  { destruct (cursor_of o).
    - apply filter_In in H2 as [H2 Hc]. split; [apply Hms, H2 | exact Hc].
    - split; [apply Hms, H2 | reflexivity]. }
  apply filter_In in Hf as [Hin Hm].
  apply in_map_iff in Hin as ([k t'] & Ht & Hin). cbn in Ht. subst t'.
  apply list_elem_of_In, elem_of_map_to_list in Hin.
  split; [exists k; exact Hin | split; assumption].
Qed.

Lemma run_query_complete (o : FetchOptions) (store : gmap string TaskSchema)
    (k : string) (t : TaskSchema) :
  limit_of o = None -> store !! k = Some t ->
  matches_filters o t = true -> before_cursor o t = true ->
  In t (run_query o store).
Proof.
  unfold run_query, before_cursor. intros Hl Hk Hm Hc. rewrite Hl.
  assert (In t (merge_sort created_desc
                  (List.filter (matches_filters o) (map snd (map_to_list store))))) as H.
  { eapply Permutation_in; [symmetry; apply (merge_sort_Permutation created_desc) |].
    apply filter_In. split; [| exact Hm].
    apply in_map_iff. exists (k, t). split; [reflexivity |].
    apply list_elem_of_In, elem_of_map_to_list, Hk. }
  destruct (cursor_of o); [apply filter_In; split; assumption | exact H].
Qed.

(** ** [fetchTasks] *)

(** [fetchTasks] reads without writing. The tasks it returns are newest
    first (by [createdAt]); each one is a stored task that passes the
    filters and lies strictly before the cursor; without a (non-zero) limit
    every such stored task is returned. Options the code tests for
    truthiness add no constraint when falsy: an empty [projectId] or
    [assignedTo], a cursor of 0. *)
Theorem fetchTasks_contents (o : FetchOptions) (w : World) :
  exists res,
    fetchTasks o w = (Ok res, w) /\
    Sorted created_desc (data res) /\
    (forall t, In t (data res) ->
       (exists k, w_tasks w !! k = Some t) /\ matches_filters o t = true /\
       before_cursor o t = true) /\
    (limit_of o = None ->
       forall k t, w_tasks w !! k = Some t -> matches_filters o t = true ->
       before_cursor o t = true -> In t (data res)).
Proof.
  eexists. split; [reflexivity |]. cbn [data].
  split; [apply StronglySorted_Sorted, run_query_sorted |].
  split; [apply run_query_In | intros Hl k t; apply run_query_complete; exact Hl].
Qed.

Lemma string_app_assoc (a b c : string) : (a ++ b ++ c)%string = ((a ++ b) ++ c)%string.
Proof. induction a as [| x a IH]; [reflexivity | exact (f_equal (String x) IH)]. Qed.

Lemma prefix_app (s b : string) : String.prefix s (s ++ b) = true.
Proof.
  induction s as [| x s IH]; [destruct b; reflexivity |].
  change (String.prefix (String x s) (String x (s ++ b)) = true).
  cbn -[String.append]. destruct (Ascii.ascii_dec x x) as [_ | Hne]; [exact IH | contradiction].
Qed.

Lemma includes_middle (a sub b : string) : includes (a ++ sub ++ b) sub = true.
Proof.
  unfold includes.
  assert (String.index 0 sub (a ++ sub ++ b) <> None) as H.
  { induction a as [| x a IH].
    - change (String.index 0 sub (sub ++ b) <> None).
      pose proof (prefix_app sub b) as P.
      destruct (sub ++ b)%string as [| y r] eqn:E.
      + destruct sub; [discriminate | discriminate E].
      + cbn -[String.prefix]. rewrite P. discriminate.
    - change (String.index 0 sub (String x (a ++ sub ++ b)) <> None).
      cbn -[String.append String.prefix].
      destruct (String.prefix sub (String x (a ++ sub ++ b))); [discriminate |].
      destruct (String.index 0 sub (a ++ sub ++ b)); [discriminate | contradiction]. }
  destruct (String.index 0 sub (a ++ sub ++ b)); [reflexivity | contradiction].
Qed.

(** ** Finding the submission message *)

(** [handleCompleteTask] recognises a submission message by the substring
    [/tasks/<id>] of its quote: the submission message of any task whose id
    extends the approved task's id (for example [t10] for [t1]) is matched
    as well as the task's own. *)
Theorem submission_matches_id_prefix (env : Env) (t t2 : TaskSchema) (suffix : string) :
  t_id t2 = (t_id t ++ suffix)%string ->
  is_submission_of t (submission_message env t2) = true.
Proof.
  intros H. unfold is_submission_of, submission_message, task_link.
  change (includes ("Tarefa: " ++ t_title t2 ++ " - [Ver Tarefa](/tasks/" ++ t_id t2 ++ ")")
            ("/tasks/" ++ t_id t) = true).
  rewrite H.
  replace ("Tarefa: " ++ t_title t2 ++ " - [Ver Tarefa](/tasks/" ++ (t_id t ++ suffix) ++ ")")%string
    with (("Tarefa: " ++ t_title t2 ++ " - [Ver Tarefa](") ++ ("/tasks/" ++ t_id t)
          ++ (suffix ++ ")"))%string
    by (rewrite <- !string_app_assoc; reflexivity).
  apply includes_middle.
Qed.

Lemma submission_matches_id_prefix_witness :
  let t := sample_task completed [] in
  let t2 := mkTask "t10" "Other" "" "p1" "u1" "u0" waiting_approval medium (double_of_Z 1) (double_of_Z 10)
                  0 [] 0 0 in
  t_id t2 = (t_id t ++ "0")%string /\ is_submission_of t (submission_message env_ok t2) = true.
Proof.
  cbv zeta. split; [reflexivity |].
  apply (submission_matches_id_prefix env_ok (sample_task completed [])
           (mkTask "t10" "Other" "" "p1" "u1" "u0" waiting_approval medium (double_of_Z 1) (double_of_Z 10)
                  0 [] 0 0) "0").
  reflexivity.
Defined.

(** ** Notifications on creation *)

(** The only notifications [createTask] sends are [task_assigned] ones to
    the non-empty assignee, about the new task; [createTaskWithTemplate]
    sends no notification at all. *)
Theorem creation_notifications (env : Env) (s : Settings) (ti : TaskInput)
    (tpl : option ActionTemplate) (w : World) :
  (exists rest,
     w_trace (snd (createTask env s ti w)) = (w_trace w ++ rest)%list /\
     Forall (fun e => match e with
                      | EvNotify n => ti_assignedTo ti <> "" /\ n_recipient n = ti_assignedTo ti /\
                                      n_type n = "task_assigned" /\
                                      n_relatedEntityId n = e_newId env
                      | _ => True
                      end) rest) /\
  (exists rest,
     w_trace (snd (createTaskWithTemplate env s ti tpl w)) = (w_trace w ++ rest)%list /\
     Forall (fun e => match e with EvNotify _ => False | _ => True end) rest).
Proof.
  split.
  - unfold createTask, set_doc, createNotification, getProjectById, logActivity.
    destruct (String.eqb (ti_assignedTo ti) "") eqn:E, (e_notify_ok env), (e_projectName env),
      (e_activity_ok env); unfold_monad; cbn;
      eexists; (split; [repeat rewrite <- app_assoc; reflexivity |]);
      repeat constructor; apply String.eqb_neq, E.
  - unfold createTaskWithTemplate, set_doc, getProjectById, logActivity.
    destruct tpl as [a |];
      [destruct (actions_defined (createActionsFromTemplate (e_now env) a)) |];
      destruct (e_projectName env), (e_activity_ok env); unfold_monad; cbn;
      eexists; (split; [repeat rewrite <- app_assoc; reflexivity | repeat constructor]).
Qed.

(** ** The action handlers of [TaskDetails] *)

(** [handleActionComplete] and [handleActionUncomplete] always resolve and
    set no error banner. On a missing task the store is unchanged and only
    the service's and the handler's errors are logged; on an existing task
    the result is the service call's store (the reload writes nothing),
    except when the completion's payload holds [undefined]: then the store
    is unchanged and both errors are logged. *)
Theorem action_handlers_outcome (env : Env) (w : World) (taskId actionId : string)
    (data : option Obj) :
  (task_in w taskId = None ->
     handleActionComplete env taskId actionId data w
       = (Ok tt, mkWorld (w_tasks w) (w_chat w)
                   (w_trace w ++ [EvLog "Erro ao completar ação de tarefa:";
                                  EvLog "Error completing action:"]))%list /\
     handleActionUncomplete env taskId actionId w
       = (Ok tt, mkWorld (w_tasks w) (w_chat w)
                   (w_trace w ++ [EvLog "Erro ao descompletar ação de tarefa:";
                                  EvLog "Error uncompleting action:"]))%list) /\
  (task_in w taskId <> None ->
     handleActionUncomplete env taskId actionId w
       = (Ok tt, snd (uncompleteTaskAction env taskId actionId w))) /\
  (forall t, task_in w taskId = Some t ->
     complete_accepted (e_uid env) actionId data (t_actions t) = true ->
     handleActionComplete env taskId actionId data w
       = (Ok tt, snd (completeTaskAction env taskId actionId data w))) /\
  (forall t, task_in w taskId = Some t ->
     complete_accepted (e_uid env) actionId data (t_actions t) = false ->
     handleActionComplete env taskId actionId data w
       = (Ok tt, mkWorld (w_tasks w) (w_chat w)
                   (w_trace w ++ [EvLog "Erro ao completar ação de tarefa:";
                                  EvLog "Error completing action:"]))%list).
Proof.
  unfold task_in, handleActionComplete, handleActionUncomplete, catch_log,
    completeTaskAction, uncompleteTaskAction, getTaskById, get_doc, update_doc.
  split; [| split; [| split]].
  - intros Ht. unfold_monad. cbn. rewrite Ht. cbn. rewrite <- !app_assoc. auto.
  - intros H. destruct (w_tasks w !! taskId) as [t |] eqn:Ht; [| congruence].
    unfold_monad. do 4 (cbn; rewrite ?Ht, ?lookup_insert_eq). auto.
  - intros t Ht Hok. unfold_monad. cbn. rewrite Ht. cbn. rewrite Hok.
    do 3 (cbn; rewrite ?Ht, ?lookup_insert_eq). auto.
  - intros t Ht Hok. unfold_monad. cbn. rewrite Ht. cbn. rewrite Hok. cbn.
    rewrite <- !app_assoc. auto.
Qed.

Lemma action_handlers_outcome_witness :
  handleActionComplete env_ok "t2" "a1" None (world_of (sample_task pending [act_open "a1" true]))
    = (Ok tt, mkWorld (w_tasks (world_of (sample_task pending [act_open "a1" true]))) []
                [EvLog "Erro ao completar ação de tarefa:"; EvLog "Error completing action:"]).
Proof.
  rewrite (proj1 (proj1 (action_handlers_outcome env_ok
             (world_of (sample_task pending [act_open "a1" true])) "t2" "a1" None) eq_refl)).
  reflexivity.
Defined.

(** A task created from a template whose default values are all defined
    is stored as pending, with one action per template element, all of
    them open and consistent, so that [allActionsCompleted] is false and
    the submit button is hidden. *)
Theorem createTaskWithTemplate_open_task (env : Env) (s : Settings) (ti : TaskInput)
    (tpl : ActionTemplate) (w : World) :
  actions_defined (createActionsFromTemplate (e_now env) tpl) = true ->
  exists t,
    task_in (snd (createTaskWithTemplate env s ti (Some tpl) w)) (e_newId env) = Some t /\
    t_status t = pending /\
    length (t_actions t) = length (tpl_elements tpl) /\
    forallb completion_consistent (t_actions t) = true /\
    allActionsCompleted t = false /\
    submit_visible t = false.
Proof.
  intros Hd.
  eexists. split; [apply createTaskWithTemplate_stores, Hd |]. cbn [t_status t_actions new_task].
  pose proof (createActionsFromTemplate_open (e_now env) tpl) as Hopen.
  assert (allActionsCompleted (new_task env s ti (createActionsFromTemplate (e_now env) tpl))
          = false) as Hall.
  { unfold allActionsCompleted. cbn [t_actions new_task].
    destruct (createActionsFromTemplate (e_now env) tpl) as [| a l]; [reflexivity |].
    inversion Hopen as [| ? ? [Ha _] _]; subst. cbn. rewrite Ha. reflexivity. }
  split; [reflexivity |]. split; [apply length_imap |]. split.
  - apply forallb_forall. intros a Ha. rewrite Forall_forall in Hopen.
    apply Hopen, list_elem_of_In, Ha.
  - split; [exact Hall | unfold submit_visible; rewrite Hall; reflexivity].
Qed.

Lemma createTaskWithTemplate_open_task_witness :
  exists t,
    task_in (snd (createTaskWithTemplate env_ok (mkSettings (double_of_Z 10) (double_of_Z 1))
                    (mkInput "T" "" "p1" "u1" medium (double_of_Z 1) 0 None)
                    (Some (mkTemplate [mkElement "Nota" "text" None (Some true) VNull ∅]))
                    (mkWorld ∅ [] []))) "t9" = Some t /\
    t_status t = pending /\ length (t_actions t) = 1%nat /\
    forallb completion_consistent (t_actions t) = true /\
    allActionsCompleted t = false /\ submit_visible t = false.
Proof.
  apply (createTaskWithTemplate_open_task env_ok (mkSettings (double_of_Z 10) (double_of_Z 1))
           (mkInput "T" "" "p1" "u1" medium (double_of_Z 1) 0 None)
           (mkTemplate [mkElement "Nota" "text" None (Some true) VNull ∅]) (mkWorld ∅ [] [])).
  vm_compute. reflexivity.
Defined.

Lemma obj_defined_undefined (o : Obj) (k : string) :
  o !! k = Some VUndefined -> obj_defined o = false.
Proof.
  intros Hk. destruct (obj_defined o) eqn:E; [| reflexivity].
  unfold obj_defined in E. rewrite forallb_forall in E.
  assert (In (k, VUndefined) (map_to_list o)) as Hin
    by (apply list_elem_of_In, elem_of_map_to_list, Hk).
  specialize (E _ Hin). discriminate.
Qed.

Lemma actions_defined_imap (g : nat -> TemplateElement -> TaskAction)
    (l : list TemplateElement) :
  (forall i el, el_defaultValue el = VUndefined ->
                obj_defined (obj_of (a_data (g i el))) = false) ->
  Exists (fun el => el_defaultValue el = VUndefined) l ->
  actions_defined (imap g l) = false.
Proof.
  intros Hg Hex. unfold actions_defined. revert g Hg.
  induction Hex as [el l Hel | el l _ IH]; intros g Hg; rewrite imap_cons; cbn [forallb].
  - rewrite (Hg 0%nat el Hel). reflexivity.
  - rewrite (IH (g ∘ S)), andb_false_r; [reflexivity |].
    intros i e He. apply Hg, He.
Qed.

(** A template with an element that has no default value
    ([defaultValue] undefined) builds an action whose [data.value] is
    [undefined]: [setDoc] refuses the task, [createTaskWithTemplate]
    rejects after logging its error, and nothing is stored or recorded. *)
Theorem createTaskWithTemplate_undefined_default (env : Env) (s : Settings)
    (ti : TaskInput) (tpl : ActionTemplate) (w : World) :
  Exists (fun el => el_defaultValue el = VUndefined) (tpl_elements tpl) ->
  createTaskWithTemplate env s ti (Some tpl) w
    = (Fail InvalidArgument,
       mkWorld (w_tasks w) (w_chat w) (w_trace w ++ [EvLog "Error creating task with template:"])).
Proof.
  intros Hex.
  assert (actions_defined (createActionsFromTemplate (e_now env) tpl) = false) as Hd.
  { apply actions_defined_imap; [| exact Hex].
    intros i el Hel. apply (obj_defined_undefined _ "value"). cbn.
    rewrite Hel. apply lookup_insert_eq. }
  unfold createTaskWithTemplate, set_doc. unfold_monad. cbn. rewrite Hd. reflexivity.
Qed.

Lemma createTaskWithTemplate_undefined_default_witness :
  createTaskWithTemplate env_ok (mkSettings (double_of_Z 10) (double_of_Z 1))
    (mkInput "T" "" "p1" "u1" medium (double_of_Z 1) 0 None)
    (Some (mkTemplate [mkElement "Nota" "text" None None VNull ∅;
                       mkElement "Foto" "photo" None None VUndefined ∅]))
    (mkWorld ∅ [] [])
    = (Fail InvalidArgument, mkWorld ∅ [] [EvLog "Error creating task with template:"]).
Proof.
  apply (createTaskWithTemplate_undefined_default env_ok
           (mkSettings (double_of_Z 10) (double_of_Z 1))
           (mkInput "T" "" "p1" "u1" medium (double_of_Z 1) 0 None)
           (mkTemplate [mkElement "Nota" "text" None None VNull ∅;
                        mkElement "Foto" "photo" None None VUndefined ∅]) (mkWorld ∅ [] [])).
  right. left. reflexivity.
Defined.

(** ** What the updates never change *)

(** [completeTaskAction] either leaves the task as it was or stores it
    with the completed actions. *)
Lemma completeTaskAction_stored (env : Env) (w : World) (taskId actionId : string)
    (t : TaskSchema) (data : option Obj) :
  task_in w taskId = Some t ->
  task_in (snd (completeTaskAction env taskId actionId data w)) taskId = Some t \/
  task_in (snd (completeTaskAction env taskId actionId data w)) taskId
    = Some (with_actions t (map (complete_action (e_now env) (e_uid env) actionId data)
                                (t_actions t)) (e_now env)).
Proof.
  intros Ht. destruct (completeTaskAction_exact env w taskId actionId t data Ht) as [_ H2].
  cbv zeta in H2. unfold task_in in *. rewrite H2.
  destruct (complete_accepted _ _ _ _); [right; apply lookup_insert_eq | left; exact Ht].
Qed.

(** The same for the revised [completeTaskAction]. *)
Lemma completeTaskAction2_stored (env : Env) (w : World) (taskId actionId : string)
    (t : TaskSchema) (data : option Obj) :
  task_in w taskId = Some t ->
  task_in (snd (completeTaskAction2 env taskId actionId data w)) taskId = Some t \/
  exists acts,
    task_in (snd (completeTaskAction2 env taskId actionId data w)) taskId
      = Some (with_actions t acts (e_now env)).
Proof.
  intros Ht.
  destruct (map_res (complete_action2 (e_now env) (e_uid env) actionId data) (t_actions t))
    as [acts | e] eqn:Hm.
  - destruct (completeTaskAction2_exact env w taskId actionId t data acts Ht Hm) as [_ H2].
    cbv zeta in H2. unfold task_in in *. rewrite H2.
    destruct (complete2_accepted _ _ _ _);
      [right; exists acts; apply lookup_insert_eq | left; exact Ht].
  - left. unfold task_in in *. unfold completeTaskAction2, get_doc. unfold_monad. cbn.
    rewrite Ht. cbn. rewrite Hm. cbn. exact Ht.
Qed.

(** Both revisions of [completeTaskAction] and [uncompleteTaskAction] never
    change a task's id, title, description, project, assignee, creator,
    priority, difficulty, reward, due date, [createdAt] or status, and
    [uncompleteTaskAction] sets [updatedAt] to the current time; the status
    updates the page sends to [updateTask] ([{ status }]) change only the
    status and [updatedAt]. *)
Theorem updates_keep_header (env : Env) (w : World) (taskId actionId : string)
    (t : TaskSchema) (st : Status) (data : option Obj) :
  task_in w taskId = Some t ->
  (exists t', task_in (snd (updateTask env taskId (status_update st) w)) taskId = Some t' /\
              keeps_header t t' /\ t_actions t' = t_actions t /\ t_status t' = st /\
              t_updatedAt t' = e_now env) /\
  (exists t', task_in (snd (completeTaskAction env taskId actionId data w)) taskId = Some t' /\
              keeps_header t t' /\ t_status t' = t_status t) /\
  (exists t', task_in (snd (uncompleteTaskAction env taskId actionId w)) taskId = Some t' /\
              keeps_header t t' /\ t_status t' = t_status t /\ t_updatedAt t' = e_now env) /\
  (exists t', task_in (snd (completeTaskAction2 env taskId actionId data w)) taskId = Some t' /\
              keeps_header t t' /\ t_status t' = t_status t).
Proof.
  intros Ht. unfold keeps_header.
  split; [| split; [| split]].
  - eexists. split; [apply (updateTask_commits env w taskId t _ Ht) |]. cbn. tauto.
  - destruct (completeTaskAction_stored env w taskId actionId t data Ht) as [H | H];
      (eexists; split; [exact H |]); cbn; tauto.
  - eexists. split; [apply (uncompleteTaskAction_success env w taskId actionId t Ht) |].
    cbn. tauto.
  - destruct (completeTaskAction2_stored env w taskId actionId t data Ht) as [H | [acts H]];
      (eexists; split; [exact H |]); cbn; tauto.
Qed.

(** ** The two revisions of [completeTaskAction] *)

(** With a [data] object free of [undefined] that has a [value], supplied
    by a signed-in user, the second revision succeeds and stores the same
    task as the first one except for the actions' [data] fields (which C6
    describes). *)
Theorem revisions_agree_with_data (env : Env) (w : World) (taskId actionId : string)
    (t : TaskSchema) (d : Obj) :
  task_in w taskId = Some t ->
  is_set (e_uid env) = true -> obj_defined d = true -> value_defined (patch_value d) = true ->
  fst (completeTaskAction2 env taskId actionId (Some d) w) = Ok tt /\
  exists t1 t2,
    task_in (snd (completeTaskAction env taskId actionId (Some d) w)) taskId = Some t1 /\
    task_in (snd (completeTaskAction2 env taskId actionId (Some d) w)) taskId = Some t2 /\
    map without_data (t_actions t1) = map without_data (t_actions t2) /\
    with_actions t1 [] 0 = with_actions t2 [] 0.
Proof.
  intros Ht Hu Hd Hv.
  assert (exists acts,
            map_res (complete_action2 (e_now env) (e_uid env) actionId (Some d)) (t_actions t)
              = Ok acts /\
            map without_data acts
              = map without_data (map (complete_action (e_now env) (e_uid env) actionId (Some d))
                                      (t_actions t))) as (acts & Hm & Hacts).
  { induction (t_actions t) as [| a l IH]; [exists []; split; reflexivity |].
    destruct IH as (acts & Hm & Hacts). cbn. rewrite Hm.
    unfold complete_action2, complete_action.
    destruct (String.eqb (a_id a) actionId); eexists; (split; [reflexivity |]);
      cbn; rewrite Hacts; reflexivity. }
  destruct (completeTaskAction2_result env w taskId actionId t (Some d) acts Ht Hm
              (complete2_accepted_defined _ _ _ _ Hu Hv)) as [H1 H2].
  split; [exact H1 |].
  do 2 eexists. split; [apply (completeTaskAction_success env w taskId actionId t (Some d) Ht
                                (complete_accepted_defined _ actionId (Some d) _ Hu Hd)) |].
  split; [exact H2 |]. cbn. split; [symmetry; exact Hacts | reflexivity].
Qed.

Lemma updates_keep_header_witness :
  exists t', task_in (snd (updateTask env_ok "t1" (status_update completed)
                             (world_of (sample_task pending [])))) "t1" = Some t' /\
             t_coinsReward t' = double_of_Z 45 /\ t_updatedAt t' = 100%Z.
Proof.
  destruct (proj1 (updates_keep_header env_ok (world_of (sample_task pending [])) "t1" "a1"
                     (sample_task pending []) completed None eq_refl))
    as (t' & Ht' & Hh & _ & _ & Hu).
  exists t'. split; [exact Ht' |]. split; [| exact Hu].
  destruct Hh as (_ & _ & _ & _ & _ & _ & _ & _ & Hc & _). exact Hc.
Defined.

Lemma revisions_agree_with_data_witness :
  fst (completeTaskAction2 env_ok "t1" "a1" (Some {["value" := VBool true]})
         (world_of (sample_task pending [act_open "a1" true]))) = Ok tt.
Proof.
  refine (proj1 (revisions_agree_with_data env_ok
            (world_of (sample_task pending [act_open "a1" true])) "t1" "a1"
            (sample_task pending [act_open "a1" true]) ({["value" := VBool true]} : Obj)
            eq_refl eq_refl _ _)); vm_compute; reflexivity.
Defined.

Lemma fetchTasks_contents_witness :
  let o := mkFetch (Some "") None None None None (Some 0%Z) in
  let w := mkWorld {["t1" := sample_task pending []]} [] [] in
  exists res, fetchTasks o w = (Ok res, w) /\ In (sample_task pending []) (data res).
Proof.
  cbv zeta.
  destruct (fetchTasks_contents (mkFetch (Some "") None None None None (Some 0%Z))
              (mkWorld {["t1" := sample_task pending []]} [] []))
    as (res & Hr & _ & _ & Hc).
  exists res. split; [exact Hr |].
  apply (Hc eq_refl "t1"); reflexivity.
Defined.
